(** * Diabetes prediction application: the prediction request pipeline

    A shallow embedding of [config.py] and [diabetes_prediction_app.py]:
    configuration validation, input validation, the single-row data frame,
    the call to the model serving endpoint and the two Flask routes
    [/predict] and [/health].

    Python values are the values a JSON document decodes to.  Floats are
    IEEE 754 binary64 numbers in the inductive presentation of the
    Standard Library ([spec_float], precision 53, [emax] 1024), so that
    not-a-number and the infinities are ordinary values.  A [dict] is an
    association list in insertion order, read with a first-match lookup.
    Exceptions are values of an error monad that also records, in order,
    the helper calls and the outbound HTTP requests a route makes. *)

From Stdlib Require Import ZArith String Ascii List Lia DecimalString.
From Stdlib Require Import Floats.SpecFloat.
From stdpp Require Import base tactics option list strings.

Local Open Scope Z_scope.
#[local] Set Warnings "-register-all".

(** ** Python floats and the [float()] conversions *)

Module Binary64.

Definition prec : Z := 53.
Definition emax : Z := 1024.

Abbreviation float := spec_float.

Definition nan : float := S754_nan.
Definition inf : float := S754_infinity false.
Definition zero : float := S754_zero false.

Definition is_finite (x : float) : bool :=
  match x with
  | S754_zero _ | S754_finite _ _ _ => true
  | S754_infinity _ | S754_nan => false
  end.

(** Nearest binary64 number to an integer, ties to even.  An integer
    beyond the largest float rounds to an infinity; [float(int)] turns
    that into [OverflowError] (see [Python.float_]). *)
Definition of_Z (z : Z) : float := binary_normalize prec emax z 0 false.

(** Nearest binary64 number to [(-1)^neg * m * 10^e10], ties to even;
    overflow gives an infinity and underflow a subnormal or a signed
    zero, as the string conversion of CPython does. *)
Definition of_decimal (neg : bool) (m e10 : Z) : float :=
  match m with
  | Zpos p =>
      if 0 <=? e10 then
        match Zpos p * 10 ^ e10 with
        | Zpos q => binary_round prec emax neg q 0
        | _ => S754_zero neg
        end
      else
        let '(q, e, loc) :=
          SFdiv_core_binary prec emax (Zpos p) 0 (10 ^ (- e10)) 0 in
        binary_round_aux prec emax neg q e loc
  | _ => S754_zero neg
  end.

(** *** The text accepted by [float(str)]

    The conversion is the one CPython applies to ASCII text: optional
    surrounding whitespace, an optional sign, then [inf], [infinity] or
    [nan] in any letter case, or a decimal numeral with an optional
    fraction and exponent; single underscores may separate digits.
    Characters outside ASCII are not given a numeric reading. *)

Definition code (c : ascii) : Z := Z.of_N (N_of_ascii c).

Definition is_space (c : ascii) : bool :=
  ((9 <=? code c) && (code c <=? 13)) || (code c =? 32).

Definition digit_val (c : ascii) : option Z :=
  if (48 <=? code c) && (code c <=? 57) then Some (code c - 48) else None.

Definition is_digit (c : ascii) : bool :=
  match digit_val c with Some _ => true | None => false end.

Definition is_underscore (c : ascii) : bool := code c =? 95.

Definition lower (c : ascii) : ascii :=
  if (65 <=? code c) && (code c <=? 90)
  then ascii_of_N (N_of_ascii c + 32) else c.

(** Underscores are allowed only between two digits. *)
Fixpoint strip_underscores (prev : ascii) (l : list ascii)
  : option (list ascii) :=
  match l with
  | [] => if is_underscore prev then None else Some []
  | c :: r =>
      if is_underscore c then
        if is_digit prev then strip_underscores c r else None
      else if is_underscore prev && negb (is_digit c) then None
      else cons c <$> strip_underscores c r
  end.

Fixpoint drop_spaces (l : list ascii) : list ascii :=
  match l with
  | c :: r => if is_space c then drop_spaces r else l
  | [] => []
  end.

Definition strip (l : list ascii) : list ascii :=
  rev (drop_spaces (rev (drop_spaces l))).

Fixpoint span_digits (l : list ascii) : list Z * list ascii :=
  match l with
  | c :: r =>
      match digit_val c with
      | Some d => let '(ds, rest) := span_digits r in (d :: ds, rest)
      | None => ([], l)
      end
  | [] => ([], [])
  end.

Definition digits_value (ds : list Z) : Z :=
  fold_left (λ acc d, 10 * acc + d) ds 0.

Definition take_sign (l : list ascii) : bool * list ascii :=
  match l with
  | c :: r =>
      if code c =? 45 then (true, r)
      else if code c =? 43 then (false, r)
      else (false, l)
  | [] => (false, [])
  end.

(** An exponent needs at least one digit; without one the [e] is not
    part of the numeral. *)
Definition take_exponent (l : list ascii) : Z * list ascii :=
  match l with
  | c :: r =>
      if code (lower c) =? 101 then
        let '(eneg, r1) := take_sign r in
        let '(ds, r2) := span_digits r1 in
        match ds with
        | [] => (0, l)
        | _ => ((if eneg then - digits_value ds else digits_value ds), r2)
        end
      else (0, l)
  | [] => (0, [])
  end.

(** The numeral at the head of [l] and the text after it, or [None]
    when [l] does not start with a numeral. *)
Definition take_decimal (l : list ascii) : option (float * list ascii) :=
  let '(neg, l1) := take_sign l in
  let '(ip, l2) := span_digits l1 in
  let '(fp, l3) :=
    match l2 with
    | c :: r => if code c =? 46 then span_digits r else ([], l2)
    | [] => ([], [])
    end in
  match ip ++ fp with
  | [] => None
  | ds =>
      let '(e, l4) := take_exponent l3 in
      Some (of_decimal neg (digits_value ds) (e - Z.of_nat (length fp)), l4)
  end.

Fixpoint match_ci (t l : list ascii) : option (list ascii) :=
  match t, l with
  | [], _ => Some l
  | a :: t', c :: l' =>
      if Ascii.eqb (lower c) a then match_ci t' l' else None
  | _ :: _, [] => None
  end.

Definition take_inf_or_nan (l : list ascii) : option (float * list ascii) :=
  let '(neg, l1) := take_sign l in
  match match_ci (list_ascii_of_string "inf") l1 with
  | Some l2 =>
      match match_ci (list_ascii_of_string "inity") l2 with
      | Some l3 => Some (S754_infinity neg, l3)
      | None => Some (S754_infinity neg, l2)
      end
  | None =>
      match match_ci (list_ascii_of_string "nan") l1 with
      | Some l2 => Some (S754_nan, l2)
      | None => None
      end
  end.

(** [float(s)] for a string: [None] stands for [ValueError]. *)
Definition of_string (s : string) : option float :=
  l ← strip_underscores Ascii.zero (list_ascii_of_string s);
  let body := strip l in
  let parsed :=
    match take_decimal body with
    | Some r => Some r
    | None => take_inf_or_nan body
    end in
  match parsed with
  | Some (x, []) => Some x
  | _ => None
  end.

End Binary64.

(** ** Python values, exceptions and the operators the application uses *)

Module Python.
Import Binary64.

(** The values a JSON document decodes to. *)
Inductive value :=
| PyNone
| PyBool (b : bool)
| PyInt (n : Z)
| PyFloat (x : float)
| PyStr (s : string)
| PyList (l : list value)
| PyDict (d : list (string * value)).

Inductive exn_class :=
| Exception
| ValueError
| TypeError
| OverflowError
| IndexError
| KeyError
| AttributeError
| HTTPException        (* werkzeug: raised by [request.get_json()] *)
| RequestException     (* requests.exceptions *)
| Timeout
| ConnectionError
| ConnectTimeout
| ReadTimeout
| JSONDecodeError.

#[export] Instance exn_class_eq_dec : EqDecision exn_class.
Proof. solve_decision. Defined.

(** [subclass c d]: an exception of class [c] is caught by [except d]. *)
Definition subclass (c d : exn_class) : bool :=
  match d, c with
  | Exception, _ => true
  | RequestException,
    (Timeout | ConnectionError | ConnectTimeout | ReadTimeout
     | JSONDecodeError) => true
  | Timeout, (ConnectTimeout | ReadTimeout) => true
  | ConnectionError, ConnectTimeout => true
  | ValueError, JSONDecodeError => true
  | _, _ => bool_decide (c = d)
  end.

(** An exception object: its class and [str(e)]. *)
Record exn := Build_exn { class_of : exn_class; str : string }.

Inductive result (A : Type) :=
| Ok (a : A)
| Raised (e : exn).
Arguments Ok {A} a.
Arguments Raised {A} e.

#[export] Instance result_ret : MRet result := @Ok.
#[export] Instance result_bind : MBind result := λ A B f m,
  match m with
  | Ok a => f a
  | Raised e => Raised e
  end.

Definition raise {A} (c : exn_class) (msg : string) : result A :=
  Raised (Build_exn c msg).

(** [str(n)] and [f'{n}'] for an [int]. *)
Definition str_of_int (n : Z) : string := NilZero.string_of_int (Z.to_int n).

(** [sep.join(l)] *)
Fixpoint join (sep : string) (l : list string) : string :=
  match l with
  | [] => ""
  | [s] => s
  | s :: r => s +:+ sep +:+ join sep r
  end.

(** [sub in s] for two strings. *)
Fixpoint substring_of (sub s : string) : bool :=
  String.prefix sub s ||
  match s with
  | EmptyString => false
  | String _ s' => substring_of sub s'
  end.

(** [occurs_in sub s]: the text [sub] appears somewhere inside [s]. *)
Definition occurs_in (sub s : string) : Prop :=
  ∃ pre post, s = pre +:+ sub +:+ post.

Definition type_name (v : value) : string :=
  match v with
  | PyNone => "NoneType"
  | PyBool _ => "bool"
  | PyInt _ => "int"
  | PyFloat _ => "float"
  | PyStr _ => "str"
  | PyList _ => "list"
  | PyDict _ => "dict"
  end.

(** Truth value, as tested by [if not data]. *)
Definition truthy (v : value) : bool :=
  match v with
  | PyNone => false
  | PyBool b => b
  | PyInt n => negb (n =? 0)
  | PyFloat x => match x with S754_zero _ => false | _ => true end
  | PyStr s => negb (String.eqb s "")
  | PyList l => match l with [] => false | _ => true end
  | PyDict d => match d with [] => false | _ => true end
  end.

(** [d[k]] on the association list of a [dict]: the first entry wins. *)
Fixpoint dict_get {V} (d : list (string * V)) (k : string) : option V :=
  match d with
  | [] => None
  | (k', v) :: r => if String.eqb k' k then Some v else dict_get r k
  end.

(** [d[k] = v]: an existing key keeps its place, a new one goes last. *)
Fixpoint dict_set {V} (d : list (string * V)) (k : string) (v : V)
  : list (string * V) :=
  match d with
  | [] => [(k, v)]
  | (k', v') :: r =>
      if String.eqb k' k then (k', v) :: r else (k', v') :: dict_set r k v
  end.

Definition dict_keys {V} (d : list (string * V)) : list string := d.*1.
Definition dict_values {V} (d : list (string * V)) : list V := d.*2.

Definition is_str (k : string) (v : value) : bool :=
  match v with
  | PyStr s => String.eqb s k
  | _ => false
  end.

(** [k in c] for a string [k]. *)
Definition contains (k : string) (c : value) : result bool :=
  match c with
  | PyDict d => Ok (bool_decide (is_Some (dict_get d k)))
  | PyList l => Ok (existsb (is_str k) l)
  | PyStr s => Ok (substring_of k s)
  | _ => raise TypeError
           ("argument of type '" +:+ type_name c +:+ "' is not iterable")
  end.

(** [c[k]] for a string [k]. *)
Definition getitem (c : value) (k : string) : result value :=
  match c with
  | PyDict d =>
      match dict_get d k with
      | Some v => Ok v
      | None => raise KeyError ("'" +:+ k +:+ "'")
      end
  | PyList _ => raise TypeError "list indices must be integers or slices, not str"
  | PyStr _ => raise TypeError "string indices must be integers, not 'str'"
  | _ => raise TypeError
           ("'" +:+ type_name c +:+ "' object is not subscriptable")
  end.

Definition index_of (i : Z) (len : nat) : option nat :=
  let j := if i <? 0 then i + Z.of_nat len else i in
  if (0 <=? j) && (j <? Z.of_nat len) then Some (Z.to_nat j) else None.

(** [c[i]] for an integer [i].  The keys of a decoded JSON object are
    strings, so an integer is never a key of a [dict]. *)
Definition getitem_int (c : value) (i : Z) : result value :=
  match c with
  | PyList l =>
      match index_of i (length l) ≫= (l !!.) with
      | Some v => Ok v
      | None => raise IndexError "list index out of range"
      end
  | PyStr s =>
      match index_of i (String.length s) ≫= (λ j, String.get j s) with
      | Some ch => Ok (PyStr (String ch EmptyString))
      | None => raise IndexError "string index out of range"
      end
  | PyDict _ => raise KeyError (str_of_int i)
  | _ => raise TypeError
           ("'" +:+ type_name c +:+ "' object is not subscriptable")
  end.

(** [data.get(k, default)] *)
Definition get (c : value) (k : string) (default : value) : result value :=
  match c with
  | PyDict d => Ok (from_option id default (dict_get d k))
  | _ => raise AttributeError
           ("'" +:+ type_name c +:+ "' object has no attribute 'get'")
  end.

(** [float(v)].  The message of the [ValueError] quotes the string
    without the escapes [repr] would add. *)
Definition float_ (v : value) : result float :=
  match v with
  | PyFloat x => Ok x
  | PyInt n =>
      match of_Z n with
      | S754_infinity _ => raise OverflowError "int too large to convert to float"
      | x => Ok x
      end
  | PyBool b => Ok (of_Z (if b then 1 else 0))
  | PyStr s =>
      match of_string s with
      | Some x => Ok x
      | None => raise ValueError
                  ("could not convert string to float: '" +:+ s +:+ "'")
      end
  | _ => raise TypeError
           ("float() argument must be a string or a real number, not '"
            +:+ type_name v +:+ "'")
  end.

End Python.

(** ** config.py *)

Module config.

Record Config := {
  SECRET_KEY : string;
  DEBUG : bool;
  HOST : string;
  PORT : Z;
  DATABRICKS_TOKEN : option string;     (* [os.getenv]: [None] when unset *)
  MLFLOW_ENDPOINT_URL : option string;
  REQUEST_TIMEOUT : Z;
  APP_NAME : string;
  APP_VERSION : string
}.

Definition MODEL_FEATURES : list string :=
  ["age"; "sex"; "bmi"; "bp"; "s1"; "s2"; "s3"; "s4"; "s5"; "s6"].

(** Truth value of an optional string: [None] and [''] are false. *)
Definition is_set (o : option string) : bool :=
  match o with
  | Some s => negb (String.eqb s "")
  | None => false
  end.

Definition token_error : string :=
  "DATABRICKS_TOKEN is not set. Please set it in your .env file or as an environment variable.".
Definition url_error : string :=
  "MLFLOW_ENDPOINT_URL is not set. Please configure your MLflow endpoint URL.".
Definition https_error (url : string) : string :=
  "MLFLOW_ENDPOINT_URL should use HTTPS for security. Current URL: " +:+ url.

Definition validate_config (cls : Config) : bool * list string :=
  let errors := [] in
  let errors :=
    if negb (is_set (DATABRICKS_TOKEN cls)) then errors ++ [token_error]
    else errors in
  let errors :=
    if negb (is_set (MLFLOW_ENDPOINT_URL cls)) then errors ++ [url_error]
    else errors in
  let errors :=
    match MLFLOW_ENDPOINT_URL cls with
    | Some url =>
        if is_set (Some url) && negb (String.prefix "https://" url)
        then errors ++ [https_error url] else errors
    | None => errors
    end in
  (bool_decide (length errors = 0%nat), errors).

(** *** The configuration classes *)

Import Python.

Inductive config_class :=
| BaseConfig            (* the class [Config] itself *)
| DevelopmentConfig
| ProductionConfig.

(** The attributes a class shows, given the ones [Config] read from the
    environment: the two subclasses fix [DEBUG] and inherit the rest. *)
Definition attributes (c : config_class) (base : Config) : Config :=
  match c with
  | BaseConfig => base
  | DevelopmentConfig =>
      {| SECRET_KEY := SECRET_KEY base; DEBUG := true; HOST := HOST base;
         PORT := PORT base; DATABRICKS_TOKEN := DATABRICKS_TOKEN base;
         MLFLOW_ENDPOINT_URL := MLFLOW_ENDPOINT_URL base;
         REQUEST_TIMEOUT := REQUEST_TIMEOUT base;
         APP_NAME := APP_NAME base; APP_VERSION := APP_VERSION base |}
  | ProductionConfig =>
      {| SECRET_KEY := SECRET_KEY base; DEBUG := false; HOST := HOST base;
         PORT := PORT base; DATABRICKS_TOKEN := DATABRICKS_TOKEN base;
         MLFLOW_ENDPOINT_URL := MLFLOW_ENDPOINT_URL base;
         REQUEST_TIMEOUT := REQUEST_TIMEOUT base;
         APP_NAME := APP_NAME base; APP_VERSION := APP_VERSION base |}
  end.

Definition default_secret_key : string := "dev-secret-key-change-in-production".

Definition secret_key_error : string :=
  "SECRET_KEY is using the default development value. "
  +:+ "Please set a secure random value in production.".

(** [ProductionConfig.validate_config]: the checks of [Config], then the
    one on the secret key. *)
Definition ProductionConfig_validate_config (cls : Config)
  : bool * list string :=
  let '(is_valid, errors) := validate_config cls in
  let errors :=
    if String.eqb (SECRET_KEY cls) default_secret_key
    then errors ++ [secret_key_error] else errors in
  (bool_decide (length errors = 0%nat), errors).

Definition config_by_name : list (string * config_class) :=
  [("development", DevelopmentConfig);
   ("production", ProductionConfig);
   ("default", DevelopmentConfig)].

(** [get_config(config_name)]; called without an argument the name is
    [default]. *)
Definition get_config (config_name : string) : config_class :=
  default DevelopmentConfig (dict_get config_by_name config_name).

(** *** [print_config_status] *)

Definition newline : string := String (ascii_of_N 10) EmptyString.

(** [s * n] *)
Fixpoint repeat_str (s : string) (n : nat) : string :=
  match n with
  | O => ""
  | S n' => s +:+ repeat_str s n'
  end.

Definition str_of_bool (b : bool) : string := if b then "True" else "False".

(** The arguments of the successive calls to [print]. *)
Definition print_config_status (cls : Config) : list string :=
  [newline +:+ repeat_str "=" 70;
   "DIABETES PREDICTION APP - CONFIGURATION STATUS";
   repeat_str "=" 70;
   "App Name: " +:+ APP_NAME cls;
   "Version: " +:+ APP_VERSION cls;
   "Debug Mode: " +:+ str_of_bool (DEBUG cls);
   "Host: " +:+ HOST cls;
   "Port: " +:+ str_of_int (PORT cls);
   repeat_str "-" 70;
   "MLflow Configuration:";
   "Endpoint URL: " +:+ default "None" (MLFLOW_ENDPOINT_URL cls);
   "Token Set: " +:+ (if is_set (DATABRICKS_TOKEN cls)
                      then "Yes (***hidden***)" else "No (NOT SET!)");
   "Request Timeout: " +:+ str_of_int (REQUEST_TIMEOUT cls) +:+ "s";
   repeat_str "-" 70;
   "Model Features: " +:+ join ", " MODEL_FEATURES;
   repeat_str "=" 70 +:+ newline].

End config.

(** ** The parts of pandas, requests and Flask the application touches *)

Module pandas.
Import Binary64 Python.

Record DataFrame := {
  columns : list string;
  index : list Z;
  data : list (list float)
}.

(** Column labels of a list of records: the keys in order of first
    appearance. *)
Definition union_keys (rows : list (list (string * float))) : list string :=
  fold_left
    (λ acc row,
       fold_left (λ acc k, if bool_decide (k ∈ acc) then acc else acc ++ [k])
                 (dict_keys row) acc)
    rows [].

(** [pd.DataFrame(rows)] for a list of dicts of floats: one row per dict,
    a missing cell is not-a-number, the index counts from 0. *)
Definition of_records (rows : list (list (string * float))) : DataFrame :=
  let cols := union_keys rows in
  {| columns := cols;
     index := Z.of_nat <$> seq 0 (length rows);
     data := (λ row, (λ c, default nan (dict_get row c)) <$> cols) <$> rows |}.

(** [df.to_dict(orient='split')] *)
Definition to_dict_split (df : DataFrame) : value :=
  PyDict [("index", PyList (PyInt <$> index df));
          ("columns", PyList (PyStr <$> columns df));
          ("data", PyList ((λ row, PyList (PyFloat <$> row)) <$> data df))].

End pandas.

Module requests.
Import Python.

(** The arguments of [requests.post].  [data] is the JSON document that
    [json.dumps(..., allow_nan=True)] writes out; its text is not
    modelled. *)
Record post_request := {
  url : option string;
  headers : list (string * string);
  data : value;
  timeout : Z
}.

(** What the application reads of a response; [json] is the outcome of
    [response.json()]. *)
Record Response := {
  status_code : Z;
  text : string;
  json : result value
}.

End requests.

Module flask.
Import Python.

(** A view's return value: the [jsonify]'d document and the status. *)
Record response := { body : value; status : Z }.

Definition jsonify (d : list (string * value)) : value := PyDict d.

End flask.

(** ** diabetes_prediction_app.py *)

Module app.
Import Binary64 Python config pandas requests flask.

(** *** Effects

    A route runs in an error monad that also writes down, in order, the
    calls it makes to the three helpers and to [requests.post]. *)

Inductive event :=
| Call_validate_input_data (data : value)
| Call_build_dataframe_from_request (data : value)
| Call_score_model (dataset : DataFrame)
| Call_requests_post (rq : post_request).

Definition io (A : Type) : Type := list event * result A.

#[export] Instance io_ret : MRet io := λ A a, ([], Ok a).
#[export] Instance io_bind : MBind io := λ A B f m,
  match m with
  | (t, Ok a) => let '(t', r) := f a in (t ++ t', r)
  | (t, Raised e) => (t, Raised e)
  end.

Definition lift {A} (r : result A) : io A := ([], r).
Definition call {A} (ev : event) (m : io A) : io A := (ev :: m.1, m.2).

(** [try: body except ...: handler] *)
Definition try_except {A} (body : io A) (handler : exn → io A) : io A :=
  match body with
  | (t, Ok a) => (t, Ok a)
  | (t, Raised e) => let '(t', r) := handler e in (t ++ t', r)
  end.

(** *** Helper functions *)

(** [[f for f in required_features if f not in data]] *)
Fixpoint missing_features_of (data : value) (required_features : list string)
  : result (list string) :=
  match required_features with
  | [] => Ok []
  | f :: rest =>
      present ← contains f data;
      missing ← missing_features_of data rest;
      Ok (if present : bool then missing else f :: missing)
  end.

(** The loop over [required_features] that tries [float(data[feature])]. *)
Fixpoint check_features (data : value) (required_features : list string)
  : result (bool * string) :=
  match required_features with
  | [] => Ok (true, "")
  | feature :: rest =>
      match getitem data feature ≫= float_ with
      | Ok _ => check_features data rest
      | Raised e =>
          if subclass (class_of e) ValueError || subclass (class_of e) TypeError
          then Ok (false, "Invalid value for feature '" +:+ feature
                          +:+ "': must be a number")
          else Raised e
      end
  end.

Definition validate_input_data (data : value) : result (bool * string) :=
  let required_features := MODEL_FEATURES in
  missing_features ← missing_features_of data required_features;
  match missing_features with
  | _ :: _ =>
      Ok (false, "Missing required features: " +:+ join ", " missing_features)
  | [] => check_features data required_features
  end.

(** [{feature: float(data.get(feature, 0)) for feature in features}] *)
Fixpoint feature_dict_of (data : value) (features : list string)
    (acc : list (string * float)) : result (list (string * float)) :=
  match features with
  | [] => Ok acc
  | feature :: rest =>
      v ← get data feature (PyInt 0);
      x ← float_ v;
      feature_dict_of data rest (dict_set acc feature x)
  end.

Definition build_dataframe_from_request (data : value) : result DataFrame :=
  feature_dict ← feature_dict_of data MODEL_FEATURES [];
  Ok (of_records [feature_dict]).

(** The document [score_model] serialises for a data frame. *)
Definition payload (dataset : DataFrame) : value :=
  PyDict [("dataframe_split", to_dict_split dataset)].

Section Routes.

(** The configuration of the process, the behaviour of the network
    on a call to [requests.post], and the outcome of
    [request.get_json()] for the request being served. *)
Variable Config : config.Config.
Variable requests_post : post_request → result Response.
Variable get_json : result value.

(** The arguments [score_model] hands to [requests.post].  The token
    is formatted into the header, so an unset token reads [None]. *)
Definition scoring_request (dataset : DataFrame) : post_request :=
  let url := MLFLOW_ENDPOINT_URL Config in
  let token := DATABRICKS_TOKEN Config in
  let timeout := REQUEST_TIMEOUT Config in
  let headers :=
    [("Authorization", "Bearer " +:+ default "None" token);
     ("Content-Type", "application/json")] in
  let data_dict := payload dataset in
  let data_json := data_dict in
  {| url := url; headers := headers; data := data_json; timeout := timeout |}.

(** [score_model] is applied to data frames only, so the branch for
    [create_tf_serving_json] is left out. *)
Definition score_model (dataset : DataFrame) : io value :=
  let timeout := REQUEST_TIMEOUT Config in
  let rq := scoring_request dataset in
  response ←
    try_except (A := Response)
      (call (Call_requests_post rq) (lift (requests_post rq)))
      (λ e,
         if subclass (class_of e) Timeout then
           lift (raise Exception
             ("Request timed out after " +:+ str_of_int timeout +:+
              " seconds. The model endpoint may be slow or unavailable."))
         else if subclass (class_of e) ConnectionError then
           lift (raise Exception
             "Failed to connect to the model endpoint. Check your internet connection and endpoint URL.")
         else lift (Raised e));
  if negb (status_code response =? 200) then
    lift (raise Exception
      ("Request failed with status " +:+ str_of_int (status_code response)
       +:+ ". " +:+ "Response: " +:+ text response))
  else lift (json response).

(** The body of the [try] block of [predict]. *)
Definition predict_try : io response :=
  data ← lift get_json;
  if negb (truthy data) then
    mret {| body := jsonify [("success", PyBool false);
                             ("error", PyStr "No data provided in request body")];
            status := 400 |}
  else
    '(is_valid, error_message) ←
      call (Call_validate_input_data data) (lift (validate_input_data data));
    if negb is_valid then
      mret {| body := jsonify [("success", PyBool false);
                               ("error", PyStr error_message)];
              status := 400 |}
    else
      df ← call (Call_build_dataframe_from_request data)
                (lift (build_dataframe_from_request data));
      result ← call (Call_score_model df) (score_model df);
      in_result ← lift (contains "predictions" result);
      prediction_value ←
        (if in_result : bool
         then lift (predictions ← getitem result "predictions";
                   getitem_int predictions 0)
         else mret result);
      mret {| body := jsonify [("success", PyBool true);
                               ("prediction", prediction_value)];
              status := 200 |}.

(** [predict]: every exception is a subclass of [Exception], so one of
    the two handlers applies and the route always answers. *)
Definition predict : list event * response :=
  match predict_try with
  | (t, Ok r) => (t, r)
  | (t, Raised e) =>
      if subclass (class_of e) RequestException then
        (t, {| body := jsonify
                 [("success", PyBool false);
                  ("error", PyStr ("Network error while calling model endpoint: "
                                   +:+ str e))];
               status := 500 |})
      else
        (t, {| body := jsonify
                 [("success", PyBool false);
                  ("error", PyStr ("An error occurred: " +:+ str e))];
               status := 400 |})
  end.

Definition health_check : response :=
  let '(is_valid, errors) := validate_config Config in
  if is_valid then
    {| body := jsonify [("status", PyStr "healthy");
                        ("app", PyStr (APP_NAME Config));
                        ("version", PyStr (APP_VERSION Config))];
       status := 200 |}
  else
    {| body := jsonify [("status", PyStr "unhealthy");
                        ("errors", PyList (PyStr <$> errors))];
       status := 500 |}.

End Routes.

End app.

(** ** Vocabulary of the statements *)

Module spec.
Import Binary64 Python config pandas requests flask app.

(** [float()] accepts the value the [dict] [d] stores under [f]. *)
Definition converts (d : list (string * value)) (f : string) : Prop :=
  ∃ v x, dict_get d f = Some v ∧ float_ v = Ok x.

(** [x] is the outcome of [float(data.get(f, 0))]. *)
Definition vectorizes (d : list (string * value)) (f : string) (x : float)
  : Prop :=
  float_ (default (PyInt 0) (dict_get d f)) = Ok x.

(** The messages [score_model] raises. *)
Definition timeout_message (Config : config.Config) : string :=
  "Request timed out after " +:+ str_of_int (REQUEST_TIMEOUT Config)
  +:+ " seconds. The model endpoint may be slow or unavailable.".

Definition status_message (resp : Response) : string :=
  "Request failed with status " +:+ str_of_int (status_code resp)
  +:+ ". Response: " +:+ text resp.

(** The error envelope of [/predict]. *)
Definition failed (prefix : string) (e : exn) (code : Z) : response :=
  {| body := jsonify [("success", PyBool false);
                      ("error", PyStr (prefix +:+ str e))];
     status := code |}.

(** The calls an accepted request makes before the network is used. *)
Definition calls_before (data : value) (df : DataFrame) : list event :=
  [Call_validate_input_data data; Call_build_dataframe_from_request data;
   Call_score_model df].

(** *** Sample inputs *)

Definition sample_config : config.Config :=
  {| SECRET_KEY := "dev-secret-key-change-in-production";
     DEBUG := true;
     HOST := "0.0.0.0";
     PORT := 4000;
     DATABRICKS_TOKEN := Some "dapi-0123456789";
     MLFLOW_ENDPOINT_URL :=
       Some "https://adb-1.azuredatabricks.net/serving-endpoints/diabetes/invocations";
     REQUEST_TIMEOUT := 30;
     APP_NAME := "Diabetes Progression Predictor";
     APP_VERSION := "1.0.0" |}.

Definition unset_config : config.Config :=
  {| SECRET_KEY := "dev-secret-key-change-in-production";
     DEBUG := true;
     HOST := "0.0.0.0";
     PORT := 4000;
     DATABRICKS_TOKEN := None;
     MLFLOW_ENDPOINT_URL := None;
     REQUEST_TIMEOUT := 30;
     APP_NAME := "Diabetes Progression Predictor";
     APP_VERSION := "1.0.0" |}.

(** The floats 0.05, 0.5, 1.0 and 152.5. *)
Definition f0_05 : float := S754_finite false 7205759403792794 (-57).
Definition f0_5 : float := S754_finite false 4503599627370496 (-53).
Definition f1_0 : float := S754_finite false 4503599627370496 (-52).
Definition f152_5 : float := S754_finite false 5365616743546880 (-45).

(** A request body with every feature at 0.05. *)
Definition sample_body : list (string * value) :=
  [("age", PyFloat f0_05); ("sex", PyFloat f0_05); ("bmi", PyFloat f0_05);
   ("bp", PyFloat f0_05); ("s1", PyFloat f0_05); ("s2", PyFloat f0_05);
   ("s3", PyFloat f0_05); ("s4", PyFloat f0_05); ("s5", PyFloat f0_05);
   ("s6", PyFloat f0_05)].

Definition sample_row : list float :=
  [f0_05; f0_05; f0_05; f0_05; f0_05; f0_05; f0_05; f0_05; f0_05; f0_05].

Definition sample_frame : DataFrame :=
  {| columns := MODEL_FEATURES; index := [0]; pandas.data := [sample_row] |}.

(** Only two of the ten features. *)
Definition partial_body : list (string * value) :=
  [("sex", PyInt 1); ("s3", PyFloat f0_05)].

(** [age] is an integer literal of 401 digits. *)
Definition huge_body : list (string * value) :=
  ("age", PyInt (10 ^ 400)) :: tail sample_body.

(** [age] is the string [nan] and [sex] the number [1e999], which JSON
    decoding reads as an infinity. *)
Definition non_finite_body : list (string * value) :=
  ("age", PyStr "nan") :: ("sex", PyFloat inf) :: tail (tail sample_body).

(** [age] is the string [0.5] and [sex] the boolean [true]. *)
Definition coerced_body : list (string * value) :=
  ("age", PyStr "0.5") :: ("sex", PyBool true) :: tail (tail sample_body).

(** A network that gives every request the same outcome. *)
Definition always (outcome : result Response)
  : post_request → result Response := λ _, outcome.

Definition read_timeout : result Response :=
  raise ReadTimeout "Read timed out. (read timeout=30)".


Definition overloaded : Response :=
  {| status_code := 503; text := "overloaded";
     json := raise JSONDecodeError "Expecting value: line 1 column 1 (char 0)" |}.

Definition dq : string := String (ascii_of_N 34) EmptyString.

Definition predictions_response (l : list value) (body : string) : Response :=
  {| status_code := 200;
     text := "{" +:+ dq +:+ "predictions" +:+ dq +:+ ": " +:+ body +:+ "}";
     json := Ok (PyDict [("predictions", PyList l)]) |}.

(** *** Vocabulary of the further properties *)

(** What the two [except] clauses of [predict] answer for an exception. *)
Definition handled (e : exn) : response :=
  if subclass (class_of e) RequestException
  then failed "Network error while calling model endpoint: " e 500
  else failed "An error occurred: " e 400.

(** The success envelope of [/predict]. *)
Definition succeeded (prediction_value : value) : response :=
  {| body := jsonify [("success", PyBool true);
                      ("prediction", prediction_value)];
     status := 200 |}.

(** The error envelope with a given message. *)
Definition error_response (msg : string) (code : Z) : response :=
  {| body := jsonify [("success", PyBool false); ("error", PyStr msg)];
     status := code |}.

(** The value [predict] extracts from a scoring response: the block that
    starts with [if 'predictions' in result]. *)
Definition interpret (scored : value) : result value :=
  in_result ← contains "predictions" scored;
  if in_result : bool
  then predictions ← getitem scored "predictions";
       getitem_int predictions 0
  else Ok scored.

(** The outbound requests recorded in a trace. *)
Definition posts (t : list event) : list post_request :=
  omap (λ ev, match ev with Call_requests_post rq => Some rq | _ => None end) t.

(** [None], a boolean or a number. *)
Definition is_scalar (v : value) : bool :=
  match v with
  | PyNone | PyBool _ | PyInt _ | PyFloat _ => true
  | PyStr _ | PyList _ | PyDict _ => false
  end.

(** A non-empty list or a non-empty string: the values [p] for which
    [p[0]] is defined. *)
Definition has_first (p : value) : bool :=
  match p with
  | PyList (_ :: _) | PyStr (String _ _) => true
  | _ => false
  end.

(** Two configurations that differ at most in the token. *)
Definition same_but_token (c1 c2 : config.Config) : Prop :=
  SECRET_KEY c1 = SECRET_KEY c2 ∧ DEBUG c1 = DEBUG c2 ∧ HOST c1 = HOST c2
  ∧ PORT c1 = PORT c2 ∧ MLFLOW_ENDPOINT_URL c1 = MLFLOW_ENDPOINT_URL c2
  ∧ REQUEST_TIMEOUT c1 = REQUEST_TIMEOUT c2 ∧ APP_NAME c1 = APP_NAME c2
  ∧ APP_VERSION c1 = APP_VERSION c2.

(** *** Further sample inputs *)

(** [bmi] is the string [abc]. *)
Definition invalid_bmi_body : list (string * value) :=
  [("age", PyFloat f0_05); ("sex", PyFloat f0_05); ("bmi", PyStr "abc");
   ("bp", PyFloat f0_05); ("s1", PyFloat f0_05); ("s2", PyFloat f0_05);
   ("s3", PyFloat f0_05); ("s4", PyFloat f0_05); ("s5", PyFloat f0_05);
   ("s6", PyFloat f0_05)].

(** The sample body with one more field. *)
Definition tagged_body : list (string * value) :=
  ("patient_id", PyInt 7) :: sample_body.

Definition partial_row : list float :=
  [zero; f1_0; zero; zero; zero; zero; f0_05; zero; zero; zero].

Definition partial_frame : DataFrame :=
  {| columns := MODEL_FEATURES; index := [0]; pandas.data := [partial_row] |}.

Definition connection_refused : result Response :=
  raise ConnectionError "Connection refused".

Definition missing_schema : result Response :=
  raise RequestException "Invalid URL 'None': No scheme supplied.".

Definition not_json : Response :=
  {| status_code := 200; text := "<html>";
     json := raise JSONDecodeError "Expecting value: line 1 column 1 (char 0)" |}.

Definition json_response (v : value) (body : string) : Response :=
  {| status_code := 200; text := body; json := Ok v |}.

Definition http_config : config.Config :=
  {| SECRET_KEY := "dev-secret-key-change-in-production";
     DEBUG := true;
     HOST := "0.0.0.0";
     PORT := 4000;
     DATABRICKS_TOKEN := Some "dapi-0123456789";
     MLFLOW_ENDPOINT_URL := Some "http://localhost:5000/invocations";
     REQUEST_TIMEOUT := 30;
     APP_NAME := "Diabetes Progression Predictor";
     APP_VERSION := "1.0.0" |}.

Definition other_token_config : config.Config :=
  {| SECRET_KEY := "dev-secret-key-change-in-production";
     DEBUG := true;
     HOST := "0.0.0.0";
     PORT := 4000;
     DATABRICKS_TOKEN := Some "dapi-another-secret";
     MLFLOW_ENDPOINT_URL :=
       Some "https://adb-1.azuredatabricks.net/serving-endpoints/diabetes/invocations";
     REQUEST_TIMEOUT := 30;
     APP_NAME := "Diabetes Progression Predictor";
     APP_VERSION := "1.0.0" |}.

Definition production_ready_config : config.Config :=
  {| SECRET_KEY := "9f8c1d2e7a6b5c4d3e2f1a0b";
     DEBUG := false;
     HOST := "0.0.0.0";
     PORT := 4000;
     DATABRICKS_TOKEN := Some "dapi-0123456789";
     MLFLOW_ENDPOINT_URL :=
       Some "https://adb-1.azuredatabricks.net/serving-endpoints/diabetes/invocations";
     REQUEST_TIMEOUT := 30;
     APP_NAME := "Diabetes Progression Predictor";
     APP_VERSION := "1.0.0" |}.

End spec.

(** * Properties *)

Import Binary64 Python config pandas requests flask app spec.

(** ** The float conversions on known values

    Each expected value is the one CPython 3.11 returns. *)

Example of_string_tenth :
  of_string "0.1" = Some (S754_finite false 7205759403792794 (-56)).
Proof. by vm_compute. Qed.

Example of_string_halfway_1e23 :
  of_string "1e23" = Some (S754_finite false 5960464477539062 24).
Proof. by vm_compute. Qed.

Example of_string_underscore_spaces :
  of_string " 1_0.5e1 " = Some (S754_finite false 7388718138654720 (-46)).
Proof. by vm_compute. Qed.

Example of_string_smallest_subnormal :
  of_string "2.5e-324" = Some (S754_finite false 1 (-1074))
  ∧ of_string "2.4e-324" = Some (S754_zero false).
Proof. split; by vm_compute. Qed.

Example of_string_overflow :
  of_string "1.7976931348623157e308"
  = Some (S754_finite false 9007199254740991 971)
  ∧ of_string "1e309" = Some (S754_infinity false).
Proof. split; by vm_compute. Qed.

Example of_string_special :
  of_string "-Infinity" = Some (S754_infinity true)
  ∧ of_string "+NaN" = Some S754_nan
  ∧ of_string "-0.0" = Some (S754_zero true).
Proof. split_and!; by vm_compute. Qed.

Example of_string_rejected :
  of_string <$> ["abc"; ""; "1_"; "1__0"; "1e"; "0x10"; "infin"; "1 2"; "."]
  = [None; None; None; None; None; None; None; None; None].
Proof. by vm_compute. Qed.

Example of_Z_ties_to_even :
  of_Z (2 ^ 53 + 1) = S754_finite false 4503599627370496 1
  ∧ of_Z (2 ^ 53 + 3) = S754_finite false 4503599627370498 1.
Proof. split; by vm_compute. Qed.

Example of_Z_largest :
  of_Z (2 ^ 1024 - 2 ^ 970 - 1) = S754_finite false 9007199254740991 971
  ∧ of_Z (2 ^ 1024 - 2 ^ 970) = S754_infinity false.
Proof. split; by vm_compute. Qed.

(** ** Strings and association lists *)

Section Strings.

Lemma append_cons (c : ascii) (s t : string) :
  String c s +:+ t = String c (s +:+ t).
Proof. reflexivity. Qed.

Lemma append_nil_r (s : string) : s +:+ "" = s.
Proof. induction s as [|c s IH]; [done|]. by rewrite append_cons, IH. Qed.

Lemma append_assoc (s t u : string) : (s +:+ t) +:+ u = s +:+ t +:+ u.
Proof. induction s as [|c s IH]; [done|]. by rewrite !append_cons, IH. Qed.

Lemma occurs_in_middle (pre sub post : string) :
  occurs_in sub (pre +:+ sub +:+ post).
Proof. by exists pre, post. Qed.

Lemma occurs_in_end (pre sub : string) : occurs_in sub (pre +:+ sub).
Proof. exists pre, "". by rewrite append_nil_r. Qed.

Lemma occurs_in_append_l (pre sub s : string) :
  occurs_in sub s → occurs_in sub (pre +:+ s).
Proof.
  intros (a & b & ->). exists (pre +:+ a), b. by rewrite append_assoc.
Qed.

End Strings.

Section Dicts.
Context {V : Type}.
Implicit Types (d : list (string * V)) (k : string) (v : V).





End Dicts.

(** ** Input validation *)

Section Validation.
Implicit Types (d : list (string * value)) (f : string) (fs : list string).

Lemma missing_features_of_dict d fs :
  missing_features_of (PyDict d) fs
  = Ok (filter (λ f, dict_get d f = None) fs).
Proof.
  induction fs as [|f fs IH]; [done|].
  rewrite filter_cons. cbn [missing_features_of]. rewrite IH.
  unfold contains, mbind, result_bind.
  destruct (dict_get d f) as [v|] eqn:E.
  - rewrite bool_decide_eq_true_2 by eauto. by rewrite decide_False.
  - rewrite bool_decide_eq_false_2 by (by intros [? ?]).
    by rewrite decide_True.
Qed.

(** Only a [dict] can pass the presence check and then be indexed by a
    feature name, so an accepted body is a non-empty [dict]. *)
Lemma check_features_accepts_dict data f fs :
  check_features data (f :: fs) = Ok (true, "") → ∃ d, data = PyDict d.
Proof.
  destruct data; cbn; try discriminate. eauto.
Qed.

Lemma check_features_true d fs :
  check_features (PyDict d) fs = Ok (true, "") ↔ Forall (converts d) fs.
Proof.
  induction fs as [|f fs IH]; cbn [check_features].
  - split; [constructor | done].
  - rewrite Forall_cons, <- IH. unfold converts. cbn.
    destruct (dict_get d f) as [v|]; cbn.
    + destruct (float_ v) as [x|e] eqn:Ev; cbn.
      * split; [intros ?; split; eauto | by intros [_ ?]].
      * split; [by destruct (_ || _)|].
        intros [(? & ? & [= <-] & Hx) _]. congruence.
    + split; [done | by intros [(? & ? & [=] & _) _]].
Qed.

Lemma validate_input_data_dict d :
  validate_input_data (PyDict d)
  = match filter (λ f, dict_get d f = None) MODEL_FEATURES with
    | [] => check_features (PyDict d) MODEL_FEATURES
    | missing =>
        Ok (false, "Missing required features: " +:+ join ", " missing)
    end.
Proof.
  unfold validate_input_data. rewrite missing_features_of_dict.
  unfold mbind, result_bind.
  by destruct (filter (λ f, dict_get d f = None) MODEL_FEATURES).
Qed.

(** What acceptance means: the body is a [dict] in which [float()]
    accepts the value of every required feature. *)
Lemma validate_input_data_true data :
  validate_input_data data = Ok (true, "")
  ↔ ∃ d, data = PyDict d ∧ Forall (converts d) MODEL_FEATURES.
Proof.
  split.
  - intros H.
    assert (∃ d, data = PyDict d) as [d ->].
    { unfold validate_input_data in H.
      destruct (missing_features_of data MODEL_FEATURES) as [[|??]|] eqn:E;
        unfold mbind, result_bind in H; try discriminate.
      exact (check_features_accepts_dict data _ _ H). }
    exists d. split; [done|].
    rewrite validate_input_data_dict in H.
    destruct (filter (λ f, dict_get d f = None) MODEL_FEATURES);
      [|discriminate].
    by apply check_features_true.
  - intros (d & -> & Hall). rewrite validate_input_data_dict.
    assert (filter (λ f, dict_get d f = None) MODEL_FEATURES = []) as ->.
    { induction Hall as [|f fs (v & x & Hv & _) _ IH]; [done|].
      rewrite filter_cons_False; [done | by rewrite Hv]. }
    by apply check_features_true.
Qed.

Lemma validate_input_data_truthy data :
  validate_input_data data = Ok (true, "") → truthy data = true.
Proof.
  intros (d & -> & Hall)%validate_input_data_true.
  destruct d; [|done]. by inversion Hall as [|?? (? & ? & [=] & _)].
Qed.

(** The first feature whose value [float()] rejects with a [ValueError]
    or a [TypeError] is the one the message names. *)
Lemma check_features_first_invalid d pre f post v e :
  Forall (converts d) pre →
  dict_get d f = Some v →
  float_ v = Raised e →
  subclass (class_of e) ValueError || subclass (class_of e) TypeError = true →
  check_features (PyDict d) (pre ++ f :: post)
  = Ok (false, "Invalid value for feature '" +:+ f +:+ "': must be a number").
Proof.
  intros Hpre Hv He Hc. induction Hpre as [|g pre (w & x & Hw & Hx) _ IH].
  - cbn [check_features app]. unfold getitem. rewrite Hv.
    unfold mbind, result_bind. by rewrite He, Hc.
  - cbn [check_features app]. unfold getitem. rewrite Hw.
    unfold mbind, result_bind. rewrite Hx. exact IH.
Qed.

End Validation.

(** ** Vectorization *)

Section Vectorization.
Implicit Types (d : list (string * value)) (fs : list string)
  (xs : list float) (acc : list (string * float)).

Lemma dict_set_fresh acc f x :
  f ∉ dict_keys acc → dict_set acc f x = acc ++ [(f, x)].
Proof.
  unfold dict_keys. induction acc as [|[k v] acc IH]; [done|].
  cbn. rewrite not_elem_of_cons. intros [Hne Hnot].
  destruct (String.eqb_spec k f) as [->|_]; [done|]. by rewrite IH.
Qed.

Lemma feature_dict_of_zip d fs xs acc :
  NoDup (dict_keys acc ++ fs) →
  Forall2 (vectorizes d) fs xs →
  feature_dict_of (PyDict d) fs acc = Ok (acc ++ zip fs xs).
Proof.
  intros Hnd Hall. revert acc Hnd.
  induction Hall as [|f x fs xs Hx _ IH]; intros acc Hnd.
  - cbn. by rewrite app_nil_r.
  - cbn [feature_dict_of zip zip_with]. unfold get, mbind, result_bind.
    unfold vectorizes in Hx. rewrite Hx.
    apply NoDup_app in Hnd as (Hacc & Hdisj & Hfs).
    rewrite dict_set_fresh by (intros ?; eapply Hdisj; [done | left]).
    rewrite IH; [by rewrite <- app_assoc|].
    unfold dict_keys in *. rewrite fmap_app. cbn.
    rewrite <- app_assoc. apply NoDup_app. split_and!; [done| |done].
    intros k Hk. apply Hdisj. done.
Qed.

Lemma union_keys_single (row : list (string * float)) :
  NoDup (dict_keys row) → union_keys [row] = dict_keys row.
Proof.
  unfold union_keys. cbn [fold_left].
  enough (∀ (ks seen : list string), NoDup (seen ++ ks) →
    fold_left (λ seen k, if bool_decide (k ∈ seen) then seen else seen ++ [k])
      ks seen = seen ++ ks) as H by (intros; by apply (H _ [])).
  induction ks as [|k ks IH]; intros seen Hnd; cbn.
  - by rewrite app_nil_r.
  - assert (k ∉ seen) as Hk.
    { apply NoDup_app in Hnd as (_ & Hd & _). intros ?. eapply Hd; [done|left]. }
    rewrite bool_decide_eq_false_2 by done.
    rewrite IH; rewrite <- app_assoc; done.
Qed.

Lemma dict_keys_zip fs xs :
  length fs = length xs → dict_keys (zip fs xs) = fs.
Proof. intros Hlen. unfold dict_keys. apply fst_zip. by rewrite Hlen. Qed.

Lemma dict_get_zip fs xs :
  NoDup fs → length fs = length xs →
  (λ c, default nan (dict_get (zip fs xs) c)) <$> fs = xs.
Proof.
  intros Hnd. revert xs. induction Hnd as [|f fs Hf _ IH]; intros [|x xs] Hlen;
    simplify_eq/=; [done|].
  rewrite String.eqb_refl. f_equal.
  etrans; [|by apply (IH xs)].
  apply list_fmap_ext. intros i c Hc.
  destruct (String.eqb_spec f c) as [->|_]; [|done].
  exfalso. apply Hf. by eapply list_elem_of_lookup_2.
Qed.

Lemma of_records_single fs xs :
  NoDup fs → length fs = length xs →
  of_records [zip fs xs] = {| columns := fs; index := [0]; pandas.data := [xs] |}.
Proof.
  intros Hnd Hlen. unfold of_records.
  rewrite union_keys_single by (by rewrite dict_keys_zip).
  rewrite dict_keys_zip by done. cbn. by rewrite dict_get_zip.
Qed.

Lemma NoDup_MODEL_FEATURES : NoDup MODEL_FEATURES.
Proof. apply (bool_decide_unpack _). by vm_compute. Qed.

(** The frame built from a [dict]: the declared columns, one row, the
    cell under a column being [float(data.get(column, 0))]. *)
Lemma build_dataframe_from_request_dict d xs :
  Forall2 (vectorizes d) MODEL_FEATURES xs →
  build_dataframe_from_request (PyDict d)
  = Ok {| columns := MODEL_FEATURES; index := [0]; pandas.data := [xs] |}.
Proof.
  intros Hall. unfold build_dataframe_from_request.
  rewrite (feature_dict_of_zip d MODEL_FEATURES xs []);
    [|apply NoDup_MODEL_FEATURES | done].
  unfold mbind, result_bind. rewrite app_nil_l.
  rewrite of_records_single; [done | apply NoDup_MODEL_FEATURES |].
  by eapply Forall2_length.
Qed.

(** Every feature of an accepted [dict] has a cell. *)
Lemma converts_vectorizes d fs :
  Forall (converts d) fs →
  ∃ xs, Forall2 (λ f x, ∃ v, dict_get d f = Some v ∧ float_ v = Ok x) fs xs
        ∧ Forall2 (vectorizes d) fs xs.
Proof.
  induction 1 as [|f fs (v & x & Hv & Hx) _ (xs & IH1 & IH2)].
  - exists []. by split; constructor.
  - exists (x :: xs). split; constructor; eauto.
    unfold vectorizes. by rewrite Hv.
Qed.

End Vectorization.

(** ** The scoring call and the [/predict] route *)

Section Routes.
Variable Config : config.Config.
Variable requests_post : post_request → result Response.

Local Abbreviation score_model := (score_model Config requests_post).
Local Abbreviation predict := (predict Config requests_post).
Local Abbreviation rq_of := (scoring_request Config).

Lemma score_model_timeout df e :
  requests_post (rq_of df) = Raised e →
  subclass (class_of e) Timeout = true →
  score_model df
  = ([Call_requests_post (rq_of df)], raise Exception (timeout_message Config)).
Proof.
  intros Hp Hc. unfold app.score_model, try_except, call, lift.
  rewrite Hp. cbn [fst snd]. by rewrite Hc.
Qed.

Lemma score_model_status df resp :
  requests_post (rq_of df) = Ok resp →
  status_code resp ≠ 200 →
  score_model df
  = ([Call_requests_post (rq_of df)], raise Exception (status_message resp)).
Proof.
  intros Hp Hc. unfold app.score_model, try_except, call, lift.
  rewrite Hp. cbn [fst snd mbind io_bind].
  apply Z.eqb_neq in Hc. by rewrite Hc.
Qed.

Lemma score_model_success df resp :
  requests_post (rq_of df) = Ok resp →
  status_code resp = 200 →
  score_model df = ([Call_requests_post (rq_of df)], json resp).
Proof.
  intros Hp Hc. unfold app.score_model, try_except, call, lift.
  rewrite Hp. cbn [fst snd mbind io_bind]. by rewrite Hc.
Qed.

Lemma predict_score_raised data df t e :
  validate_input_data data = Ok (true, "") →
  build_dataframe_from_request data = Ok df →
  score_model df = (t, Raised e) →
  predict (Ok data)
  = (calls_before data df ++ t,
     if subclass (class_of e) RequestException
     then failed "Network error while calling model endpoint: " e 500
     else failed "An error occurred: " e 400).
Proof.
  intros Hv Hb Hs. unfold app.predict, predict_try, call, lift.
  cbn [mbind io_bind fst snd]. rewrite (validate_input_data_truthy _ Hv), Hv.
  cbn [negb fst snd app]. rewrite Hb. cbn [fst snd]. rewrite Hs.
  cbn [fst snd app].
  destruct (subclass (class_of e) RequestException); by rewrite ?app_nil_r.
Qed.

Lemma predict_score_returned data df t result :
  validate_input_data data = Ok (true, "") →
  build_dataframe_from_request data = Ok df →
  score_model df = (t, Ok result) →
  predict (Ok data)
  = (calls_before data df ++ t,
     match
       in_result ← contains "predictions" result;
       if in_result : bool
       then predictions ← getitem result "predictions";
            getitem_int predictions 0
       else Ok result
     with
     | Ok prediction_value =>
         {| body := jsonify [("success", PyBool true);
                             ("prediction", prediction_value)];
            status := 200 |}
     | Raised e =>
         if subclass (class_of e) RequestException
         then failed "Network error while calling model endpoint: " e 500
         else failed "An error occurred: " e 400
     end).
Proof.
  intros Hv Hb Hs. unfold app.predict, predict_try, call, lift.
  cbn [mbind io_bind fst snd]. rewrite (validate_input_data_truthy _ Hv), Hv.
  cbn [negb fst snd app]. rewrite Hb. cbn [fst snd]. rewrite Hs.
  cbn [fst snd app].
  unfold calls_before, failed.
  destruct (contains "predictions" result) as [[]|e];
    unfold mbind, mret, io_bind, io_ret, result_bind;
    [destruct (getitem result "predictions") as [p|e];
       [destruct (getitem_int p 0) as [v|e]|] | |];
    try destruct (subclass (class_of e) RequestException);
    cbn [app]; by rewrite ?app_nil_r.
Qed.

End Routes.

(** ** Claims about input validation *)

(** C2: a [dict] that lacks at least one required feature is rejected, and
    the message lists, joined by a comma and a space, exactly the missing
    names in the order of [MODEL_FEATURES]. *)
Theorem validate_input_data_missing (d : list (string * value)) :
  (∃ f, f ∈ MODEL_FEATURES ∧ dict_get d f = None) →
  ∃ missing,
    validate_input_data (PyDict d)
    = Ok (false, "Missing required features: " +:+ join ", " missing)
    ∧ missing `sublist_of` MODEL_FEATURES
    ∧ ∀ f, f ∈ missing ↔ f ∈ MODEL_FEATURES ∧ dict_get d f = None.
Proof.
  intros (f0 & Hin & Hnone).
  exists (filter (λ f, dict_get d f = None) MODEL_FEATURES). split_and!.
  - rewrite validate_input_data_dict.
    assert (f0 ∈ filter (λ f, dict_get d f = None) MODEL_FEATURES) as Hf0
      by (by apply list_elem_of_filter).
    destruct (filter (λ f, dict_get d f = None) MODEL_FEATURES);
      [by apply elem_of_nil in Hf0 | done].
  - apply sublist_filter.
  - intros f. rewrite list_elem_of_filter. tauto.
Qed.

Lemma validate_input_data_missing_witness :
  ∃ missing,
    validate_input_data (PyDict partial_body)
    = Ok (false, "Missing required features: " +:+ join ", " missing)
    ∧ missing `sublist_of` MODEL_FEATURES
    ∧ ∀ f, f ∈ missing ↔ f ∈ MODEL_FEATURES ∧ dict_get partial_body f = None.
Proof.
  apply (validate_input_data_missing partial_body).
  exists "age". split; [left | reflexivity].
Defined.

(** C3, at an input the code mishandles: every required name is present
    and [float()] cannot convert the value of [age], an integer beyond the
    range of a float; [validate_input_data] then raises [OverflowError]
    itself instead of returning a verdict naming [age]. *)
Theorem validate_input_data_overflow_escapes :
  Forall (λ f, is_Some (dict_get huge_body f)) MODEL_FEATURES
  ∧ float_ (PyInt (10 ^ 400))
    = raise OverflowError "int too large to convert to float"
  ∧ validate_input_data (PyDict huge_body)
    = raise OverflowError "int too large to convert to float".
Proof.
  split_and!.
  - repeat (constructor; [by eexists|]). constructor.
  - by vm_compute.
  - by vm_compute.
Qed.

(** C9, refuted as stated: a body whose [age] is the string [nan] and
    whose [sex] is an infinity is accepted, although neither value parses
    to a finite number. *)
Lemma validate_input_data_accepts_non_finite :
  validate_input_data (PyDict non_finite_body) = Ok (true, "")
  ∧ dict_get non_finite_body "age" = Some (PyStr "nan")
  ∧ float_ (PyStr "nan") = Ok nan
  ∧ is_finite nan = false
  ∧ dict_get non_finite_body "sex" = Some (PyFloat inf)
  ∧ float_ (PyFloat inf) = Ok inf
  ∧ is_finite inf = false.
Proof. split_and!; by vm_compute. Qed.

(** C9, amended: in an accepted [dict] every required feature is present
    and [float()] converts its value without raising; nothing is said
    about the float being finite. *)
Theorem validate_input_data_accepted_converts (d : list (string * value)) :
  validate_input_data (PyDict d) = Ok (true, "") →
  ∀ f, f ∈ MODEL_FEATURES → ∃ v x, dict_get d f = Some v ∧ float_ v = Ok x.
Proof.
  intros (d' & [= <-] & Hall)%validate_input_data_true f Hf.
  by apply (proj1 (Forall_forall _ _) Hall).
Qed.

Lemma validate_input_data_accepted_converts_witness :
  ∃ v x, dict_get non_finite_body "age" = Some v ∧ float_ v = Ok x.
Proof.
  apply (validate_input_data_accepted_converts non_finite_body);
    [by vm_compute | left].
Defined.

(** ** Claims about vectorization *)



(** C10: [float()] reads the string [0.5] as 0.5 and the booleans as 1.0
    and 0.0; a [dict] is accepted as soon as [float()] converts the value
    of every required feature, whatever the type of the value; and the row
    built from it holds, column by column, the float [float()] returns for
    the stored value. *)
Theorem build_dataframe_coerces_with_float :
  float_ (PyStr "0.5") = Ok f0_5
  ∧ float_ (PyBool true) = Ok f1_0
  ∧ float_ (PyBool false) = Ok zero
  ∧ ∀ d : list (string * value),
      Forall (converts d) MODEL_FEATURES →
      validate_input_data (PyDict d) = Ok (true, "")
      ∧ ∃ row,
          build_dataframe_from_request (PyDict d)
          = Ok {| columns := MODEL_FEATURES; index := [0];
                  pandas.data := [row] |}
          ∧ Forall2 (λ f x, ∃ v, dict_get d f = Some v ∧ float_ v = Ok x)
                    MODEL_FEATURES row.
Proof.
  do 3 (split; [by vm_compute|]). intros d Hall. split.
  - apply validate_input_data_true. eauto.
  - destruct (converts_vectorizes d MODEL_FEATURES Hall) as (row & H1 & H2).
    exists row. split; [by apply build_dataframe_from_request_dict | done].
Qed.

Lemma build_dataframe_coerces_with_float_witness :
  validate_input_data (PyDict coerced_body) = Ok (true, "")
  ∧ ∃ row,
      build_dataframe_from_request (PyDict coerced_body)
      = Ok {| columns := MODEL_FEATURES; index := [0]; pandas.data := [row] |}
      ∧ Forall2 (λ f x, ∃ v, dict_get coerced_body f = Some v ∧ float_ v = Ok x)
                MODEL_FEATURES row.
Proof.
  apply (proj2 (proj2 (proj2 build_dataframe_coerces_with_float)) coerced_body).
  repeat (constructor; [eexists _, _; split; [reflexivity | by vm_compute]|]).
  constructor.
Defined.

(** ** Claims about the routes *)

(** A timeout of the outbound call is answered with status 400: the
    exception [score_model] raises in its place is a plain [Exception],
    which the handler for [RequestException] does not catch. *)
Lemma predict_timeout Config requests_post data df e :
  validate_input_data data = Ok (true, "") →
  build_dataframe_from_request data = Ok df →
  requests_post (scoring_request Config df) = Raised e →
  subclass (class_of e) Timeout = true →
  (predict Config requests_post (Ok data)).2
  = {| body := jsonify
         [("success", PyBool false);
          ("error", PyStr ("An error occurred: " +:+ timeout_message Config))];
       status := 400 |}
  ∧ occurs_in (str_of_int (REQUEST_TIMEOUT Config))
              ("An error occurred: " +:+ timeout_message Config).
Proof.
  intros Hv Hb Hp Hc. split.
  - by rewrite (predict_score_raised _ _ _ _ _ _ Hv Hb
                  (score_model_timeout _ _ _ _ Hp Hc)).
  - apply (occurs_in_middle "An error occurred: Request timed out after ").
Qed.

(** C1, at an input the code mishandles: with a timeout of 30 seconds and
    a read timeout on the outbound call, [/predict] answers 400, not 500;
    the message does name the 30 seconds. *)
Theorem predict_timeout_answers_400 :
  (predict sample_config (always read_timeout) (Ok (PyDict sample_body))).2
  = {| body := jsonify
         [("success", PyBool false);
          ("error",
           PyStr "An error occurred: Request timed out after 30 seconds. The model endpoint may be slow or unavailable.")];
       status := 400 |}.
Proof. by vm_compute. Qed.

(** C5: when the scoring service answers with a status other than 200,
    [score_model] raises an [Exception] whose message holds the status code
    and the raw body, and [/predict] answers 400 with that message, status
    code and body included, in its error field. *)
Theorem predict_non_success_status Config requests_post data df resp :
  validate_input_data data = Ok (true, "") →
  build_dataframe_from_request data = Ok df →
  requests_post (scoring_request Config df) = Ok resp →
  status_code resp ≠ 200 →
  (score_model Config requests_post df).2
  = raise Exception
      ("Request failed with status " +:+ str_of_int (status_code resp)
       +:+ ". Response: " +:+ text resp)
  ∧ (predict Config requests_post (Ok data)).2
    = {| body := jsonify
           [("success", PyBool false);
            ("error", PyStr ("An error occurred: " +:+ status_message resp))];
         status := 400 |}
  ∧ occurs_in (str_of_int (status_code resp))
              ("An error occurred: " +:+ status_message resp)
  ∧ occurs_in (text resp) ("An error occurred: " +:+ status_message resp).
Proof.
  intros Hv Hb Hp Hc.
  pose proof (score_model_status _ _ _ _ Hp Hc) as Hs. split_and!.
  - by rewrite Hs.
  - by rewrite (predict_score_raised _ _ _ _ _ _ Hv Hb Hs).
  - apply (occurs_in_middle "An error occurred: Request failed with status ").
  - apply occurs_in_append_l. unfold status_message.
    rewrite <- !append_assoc. apply occurs_in_end.
Qed.

Lemma predict_non_success_status_witness :
  (predict sample_config (always (Ok overloaded)) (Ok (PyDict sample_body))).2
  = {| body := jsonify
         [("success", PyBool false);
          ("error",
           PyStr "An error occurred: Request failed with status 503. Response: overloaded")];
       status := 400 |}.
Proof.
  apply (predict_non_success_status sample_config (always (Ok overloaded))
           (PyDict sample_body) sample_frame overloaded);
    [by vm_compute | by vm_compute | reflexivity | discriminate].
Defined.

(** C6, refuted as stated: the service answers 200 with a [predictions]
    field that holds a sequence, the empty one; [/predict] answers 400. *)
Lemma predict_empty_predictions_fails :
  json (predictions_response [] "[]") = Ok (PyDict [("predictions", PyList [])])
  ∧ (predict sample_config (always (Ok (predictions_response [] "[]")))
       (Ok (PyDict sample_body))).2
    = {| body := jsonify
           [("success", PyBool false);
            ("error", PyStr "An error occurred: list index out of range")];
         status := 400 |}.
Proof. split; by vm_compute. Qed.

(** C6, amended: after a 200 answer that decodes to a JSON object,
    [/predict] answers 200 with [success] true; the prediction is the first
    element of [predictions] when that field holds a non-empty list (the
    first character when it holds a non-empty string), and the whole
    object when it has no such field. *)
Theorem predict_success_prediction Config requests_post data df resp r :
  validate_input_data data = Ok (true, "") →
  build_dataframe_from_request data = Ok df →
  requests_post (scoring_request Config df) = Ok resp →
  status_code resp = 200 →
  json resp = Ok (PyDict r) →
  let answer prediction_value :=
    {| body := jsonify [("success", PyBool true);
                        ("prediction", prediction_value)];
       status := 200 |} in
  (∀ first rest, dict_get r "predictions" = Some (PyList (first :: rest)) →
     (predict Config requests_post (Ok data)).2 = answer first)
  ∧ (∀ c s, dict_get r "predictions" = Some (PyStr (String c s)) →
       (predict Config requests_post (Ok data)).2
       = answer (PyStr (String c EmptyString)))
  ∧ (dict_get r "predictions" = None →
       (predict Config requests_post (Ok data)).2 = answer (PyDict r)).
Proof.
  intros Hv Hb Hp Hc Hj answer.
  pose proof (score_model_success _ _ _ _ Hp Hc) as Hs. rewrite Hj in Hs.
  rewrite (predict_score_returned _ _ _ _ _ _ Hv Hb Hs). cbn [snd].
  unfold contains, getitem, mbind, result_bind. split_and!.
  - intros first rest ->. by rewrite bool_decide_eq_true_2 by eauto.
  - intros c s ->. by rewrite bool_decide_eq_true_2 by eauto.
  - intros ->. by rewrite bool_decide_eq_false_2 by (by intros [? ?]).
Qed.

Lemma predict_success_prediction_witness :
  (predict sample_config
     (always (Ok (predictions_response [PyFloat f152_5] "[152.5]")))
     (Ok (PyDict sample_body))).2
  = {| body := jsonify [("success", PyBool true);
                        ("prediction", PyFloat f152_5)];
       status := 200 |}.
Proof.
  apply (proj1 (predict_success_prediction sample_config
                  (always (Ok (predictions_response [PyFloat f152_5] "[152.5]")))
                  (PyDict sample_body) sample_frame
                  (predictions_response [PyFloat f152_5] "[152.5]")
                  [("predictions", PyList [PyFloat f152_5])]
                  ltac:(by vm_compute) ltac:(by vm_compute)
                  eq_refl eq_refl eq_refl) (PyFloat f152_5) []).
  reflexivity.
Defined.




(** C8: with neither the token nor the endpoint URL set, [/health] answers
    500 with status [unhealthy] and the two error strings; when
    [validate_config] reports a valid configuration it answers 200 with
    status [healthy], the application name and the version. *)
Theorem health_check_reports_config (Config : config.Config) :
  (DATABRICKS_TOKEN Config = None → MLFLOW_ENDPOINT_URL Config = None →
   health_check Config
   = {| body := jsonify
          [("status", PyStr "unhealthy");
           ("errors", PyList [PyStr token_error; PyStr url_error])];
        status := 500 |})
  ∧ ((validate_config Config).1 = true →
     health_check Config
     = {| body := jsonify
            [("status", PyStr "healthy");
             ("app", PyStr (APP_NAME Config));
             ("version", PyStr (APP_VERSION Config))];
          status := 200 |}).
Proof.
  split.
  - intros Ht Hu. unfold health_check, validate_config. by rewrite Ht, Hu.
  - unfold health_check. destruct (validate_config Config) as [is_valid errors].
    cbn [fst]. by intros ->.
Qed.

Lemma health_check_reports_config_witness :
  health_check unset_config
  = {| body := jsonify
         [("status", PyStr "unhealthy");
          ("errors", PyList [PyStr token_error; PyStr url_error])];
       status := 500 |}
  ∧ health_check sample_config
    = {| body := jsonify
           [("status", PyStr "healthy");
            ("app", PyStr "Diabetes Progression Predictor");
            ("version", PyStr "1.0.0")];
         status := 200 |}.
Proof.
  split.
  - apply (proj1 (health_check_reports_config unset_config)); reflexivity.
  - apply (proj2 (health_check_reports_config sample_config)). reflexivity.
Defined.

(** * Further properties *)

(** ** More on input validation *)

Section MoreValidation.
Implicit Types (d : list (string * value)) (f : string) (fs : list string).

Lemma filter_absent_nil d fs :
  Forall (λ f, is_Some (dict_get d f)) fs →
  filter (λ f, dict_get d f = None) fs = [].
Proof.
  induction 1 as [|f fs [v Hv] _ IH]; [done|].
  rewrite filter_cons_False; [done | by rewrite Hv].
Qed.

Lemma invalid_message_nonempty f :
  "Invalid value for feature '" +:+ f +:+ "': must be a number" ≠ "".
Proof. done. Qed.

Lemma check_features_verdict data fs ok msg :
  check_features data fs = Ok (ok, msg) → ok = true ↔ msg = "".
Proof.
  induction fs as [|f fs IH]; cbn [check_features].
  - by intros [= <- <-].
  - destruct (getitem data f ≫= float_) as [x|e]; [done|].
    destruct (subclass (class_of e) ValueError || subclass (class_of e) TypeError);
      [|done].
    intros [= <- <-]. split; [done|]. intros H.
    by apply invalid_message_nonempty in H.
Qed.

Lemma validate_verdict_message data ok msg :
  validate_input_data data = Ok (ok, msg) → ok = true ↔ msg = "".
Proof.
  unfold validate_input_data.
  destruct (missing_features_of data MODEL_FEATURES) as [[|f fs]|e];
    unfold mbind, result_bind; [|by intros [= <- <-]|done].
  apply check_features_verdict.
Qed.

(** The presence check never raises on a list or a string. *)
Lemma missing_features_of_sequence data fs :
  (∃ l, data = PyList l) ∨ (∃ s, data = PyStr s) →
  ∃ missing, missing_features_of data fs = Ok missing.
Proof.
  intros Hd. induction fs as [|f fs [missing IH]]; [by eexists|].
  cbn [missing_features_of]. rewrite IH.
  destruct Hd as [[l ->]|[s ->]]; cbn; by eexists.
Qed.

Lemma validate_input_data_sequence data :
  (∃ l, data = PyList l) ∨ (∃ s, data = PyStr s) →
  ∃ msg, validate_input_data data = Ok (false, msg).
Proof.
  intros Hd. unfold validate_input_data.
  destruct (missing_features_of_sequence data MODEL_FEATURES Hd)
    as [missing ->]. unfold mbind, result_bind.
  destruct missing; [|by eexists].
  destruct Hd as [[l ->]|[s ->]]; by eexists.
Qed.

Lemma validate_input_data_scalar data :
  is_scalar data = true →
  validate_input_data data
  = raise TypeError
      ("argument of type '" +:+ type_name data +:+ "' is not iterable").
Proof. by destruct data. Qed.

Lemma missing_features_of_agree d d' fs :
  (∀ f, f ∈ fs → dict_get d f = dict_get d' f) →
  missing_features_of (PyDict d) fs = missing_features_of (PyDict d') fs.
Proof.
  intros H. rewrite !missing_features_of_dict. f_equal.
  induction fs as [|f fs IH]; [done|].
  rewrite !filter_cons, (H f) by left. rewrite IH; [done|].
  intros g Hg. apply H. by right.
Qed.

Lemma check_features_agree d d' fs :
  (∀ f, f ∈ fs → dict_get d f = dict_get d' f) →
  check_features (PyDict d) fs = check_features (PyDict d') fs.
Proof.
  intros H. induction fs as [|f fs IH]; [done|].
  cbn [check_features]. unfold getitem. rewrite (H f) by left.
  rewrite IH; [done|]. intros g Hg. apply H. by right.
Qed.

Lemma feature_dict_of_agree d d' fs acc :
  (∀ f, f ∈ fs → dict_get d f = dict_get d' f) →
  feature_dict_of (PyDict d) fs acc = feature_dict_of (PyDict d') fs acc.
Proof.
  intros H. revert acc. induction fs as [|f fs IH]; intros acc; [done|].
  cbn [feature_dict_of]. unfold get. rewrite (H f) by left.
  unfold mbind, result_bind.
  destruct (float_ (from_option id (PyInt 0) (dict_get d' f))); [|done].
  apply IH. intros g Hg. apply H. by right.
Qed.

End MoreValidation.

(** X1: when every required name is present, the features before [f]
    convert, and [float()] rejects the value of [f] with a [ValueError] or
    a [TypeError], the verdict is negative and the message names [f]. *)
Theorem validate_input_data_first_invalid
    (d : list (string * value)) (pre post : list string) (f : string)
    (v : value) (e : exn) :
  MODEL_FEATURES = pre ++ f :: post →
  Forall (λ g, is_Some (dict_get d g)) MODEL_FEATURES →
  Forall (converts d) pre →
  dict_get d f = Some v →
  float_ v = Raised e →
  subclass (class_of e) ValueError || subclass (class_of e) TypeError = true →
  validate_input_data (PyDict d)
  = Ok (false, "Invalid value for feature '" +:+ f +:+ "': must be a number").
Proof.
  intros Hfs Hall Hpre Hv He Hc.
  rewrite validate_input_data_dict, (filter_absent_nil _ _ Hall), Hfs.
  by eapply check_features_first_invalid.
Qed.

Lemma validate_input_data_first_invalid_witness :
  validate_input_data (PyDict invalid_bmi_body)
  = Ok (false, "Invalid value for feature 'bmi': must be a number").
Proof.
  apply (validate_input_data_first_invalid invalid_bmi_body
           ["age"; "sex"] ["bp"; "s1"; "s2"; "s3"; "s4"; "s5"; "s6"] "bmi"
           (PyStr "abc")
           (Build_exn ValueError "could not convert string to float: 'abc'")).
  - reflexivity.
  - repeat (constructor; [by eexists|]). constructor.
  - repeat (constructor; [eexists _, _; split; [reflexivity | by vm_compute]|]).
    constructor.
  - reflexivity.
  - by vm_compute.
  - reflexivity.
Defined.

(** X2: whenever [validate_input_data] returns, the message is empty
    exactly when the verdict is positive. *)
Theorem validate_input_data_message (data : value) (ok : bool) (msg : string) :
  validate_input_data data = Ok (ok, msg) → ok = true ↔ msg = "".
Proof. apply validate_verdict_message. Qed.

Lemma validate_input_data_message_witness :
  false = true
  ↔ "Missing required features: age, bmi, bp, s1, s2, s4, s5, s6" = "".
Proof.
  apply (validate_input_data_message (PyDict partial_body)). by vm_compute.
Defined.

(** X3: a body that is a JSON array or string is never accepted and never
    makes [validate_input_data] raise; a body that is [None], a boolean or
    a number makes it raise [TypeError]. *)
Theorem validate_input_data_not_a_mapping :
  (∀ l, ∃ msg, validate_input_data (PyList l) = Ok (false, msg))
  ∧ (∀ s, ∃ msg, validate_input_data (PyStr s) = Ok (false, msg))
  ∧ (∀ data, is_scalar data = true →
       ∃ msg, validate_input_data data = raise TypeError msg).
Proof.
  split_and!.
  - intros l. apply validate_input_data_sequence. eauto.
  - intros s. apply validate_input_data_sequence. eauto.
  - intros data Hd. rewrite (validate_input_data_scalar _ Hd). by eexists.
Qed.

(** X4: fields other than the ten required ones are ignored: two bodies
    that agree on the required features get the same verdict and the same
    frame. *)
Theorem other_fields_ignored (d d' : list (string * value)) :
  (∀ f, f ∈ MODEL_FEATURES → dict_get d f = dict_get d' f) →
  validate_input_data (PyDict d) = validate_input_data (PyDict d')
  ∧ build_dataframe_from_request (PyDict d)
    = build_dataframe_from_request (PyDict d').
Proof.
  intros H. split.
  - unfold validate_input_data.
    by rewrite (missing_features_of_agree d d'), (check_features_agree d d').
  - unfold build_dataframe_from_request.
    by rewrite (feature_dict_of_agree d d').
Qed.

Lemma other_fields_ignored_witness :
  validate_input_data (PyDict tagged_body)
  = validate_input_data (PyDict sample_body)
  ∧ build_dataframe_from_request (PyDict tagged_body)
    = build_dataframe_from_request (PyDict sample_body).
Proof.
  apply (other_fields_ignored tagged_body sample_body).
  intros f Hf.
  repeat (apply elem_of_cons in Hf as [->|Hf]; [reflexivity|]).
  by apply elem_of_nil in Hf.
Defined.

(** ** More on vectorization *)

Section MoreVectorization.
Implicit Types (d : list (string * value)) (fs : list string)
  (xs : list float) (acc : list (string * float)).

(** A successful comprehension converted every feature. *)
Lemma feature_dict_of_inv d fs acc r :
  feature_dict_of (PyDict d) fs acc = Ok r →
  ∃ xs, Forall2 (vectorizes d) fs xs.
Proof.
  revert acc. induction fs as [|f fs IH]; intros acc H.
  - exists []. constructor.
  - cbn [feature_dict_of] in H. unfold get, mbind, result_bind in H.
    destruct (float_ (from_option id (PyInt 0) (dict_get d f))) as [x|e] eqn:E;
      [|done].
    destruct (IH _ H) as [xs Hxs]. exists (x :: xs). by constructor.
Qed.

Lemma feature_dict_of_not_dict data f fs acc :
  (∀ d, data ≠ PyDict d) →
  ∃ msg, feature_dict_of data (f :: fs) acc = raise AttributeError msg.
Proof. intros H. destruct data; try by eexists. by destruct (H d). Qed.

Lemma build_dataframe_from_request_inv data df :
  build_dataframe_from_request data = Ok df →
  ∃ d row, data = PyDict d
    ∧ df = {| columns := MODEL_FEATURES; index := [0]; pandas.data := [row] |}
    ∧ Forall2 (vectorizes d) MODEL_FEATURES row.
Proof.
  intros H.
  assert (∃ d, data = PyDict d) as [d ->].
  { destruct data; try discriminate. eauto. }
  destruct (feature_dict_of (PyDict d) MODEL_FEATURES []) as [r|e] eqn:E;
    [|by unfold build_dataframe_from_request in H; rewrite E in H].
  destruct (feature_dict_of_inv _ _ _ _ E) as [row Hrow].
  rewrite (build_dataframe_from_request_dict d row Hrow) in H.
  injection H as <-. eauto.
Qed.

Lemma feature_dict_of_raises d pre f post acc e :
  Forall (λ g, ∃ x, vectorizes d g x) pre →
  float_ (default (PyInt 0) (dict_get d f)) = Raised e →
  feature_dict_of (PyDict d) (pre ++ f :: post) acc = Raised e.
Proof.
  intros Hpre He. revert acc.
  induction Hpre as [|g pre [x Hx] _ IH]; intros acc;
    cbn [feature_dict_of app]; unfold get, mbind, result_bind.
  - by rewrite He.
  - unfold vectorizes in Hx. rewrite Hx. apply IH.
Qed.

(** A body that validation accepts is vectorized without an exception. *)
Lemma accepted_builds data :
  validate_input_data data = Ok (true, "") →
  ∃ df, build_dataframe_from_request data = Ok df.
Proof.
  intros (d & -> & Hall)%validate_input_data_true.
  destruct (converts_vectorizes d MODEL_FEATURES Hall) as (row & _ & Hrow).
  eexists. by apply build_dataframe_from_request_dict.
Qed.

End MoreVectorization.

(** X5: every frame [build_dataframe_from_request] returns comes from a
    [dict] and has the ten declared columns in order, the index [[0]] and
    one row of ten cells, each cell being [float(data.get(column, 0))];
    the body need not have been validated. *)
Theorem build_dataframe_shape (data : value) (df : DataFrame) :
  build_dataframe_from_request data = Ok df →
  ∃ d row,
    data = PyDict d
    ∧ df = {| columns := MODEL_FEATURES; index := [0]; pandas.data := [row] |}
    ∧ length row = 10%nat
    ∧ Forall2 (vectorizes d) MODEL_FEATURES row.
Proof.
  intros (d & row & -> & -> & Hrow)%build_dataframe_from_request_inv.
  exists d, row. split_and!; [done..| |done].
  by rewrite <- (Forall2_length _ _ _ Hrow).
Qed.

Lemma build_dataframe_shape_witness :
  ∃ d row,
    PyDict partial_body = PyDict d
    ∧ partial_frame
      = {| columns := MODEL_FEATURES; index := [0]; pandas.data := [row] |}
    ∧ length row = 10%nat
    ∧ Forall2 (vectorizes d) MODEL_FEATURES row.
Proof.
  apply (build_dataframe_shape (PyDict partial_body) partial_frame).
  by vm_compute.
Defined.

(** X6: in a frame built from a [dict], the cell of a required feature
    the [dict] lacks is the float 0.0. *)
Theorem build_dataframe_default_zero
    (d : list (string * value)) (df : DataFrame) (i : nat) (name : string) :
  build_dataframe_from_request (PyDict d) = Ok df →
  MODEL_FEATURES !! i = Some name →
  dict_get d name = None →
  ∃ row, pandas.data df = [row] ∧ row !! i = Some zero.
Proof.
  intros (d' & row & [= <-] & -> & Hrow)%build_dataframe_from_request_inv
    Hi Hnone.
  exists row. split; [done|].
  destruct (Forall2_lookup_l _ _ _ _ _ Hrow Hi) as (x & Hx & Hv).
  unfold vectorizes in Hv. rewrite Hnone in Hv. cbn in Hv.
  by injection Hv as <-.
Qed.

Lemma build_dataframe_default_zero_witness :
  ∃ row, pandas.data partial_frame = [row] ∧ row !! 2%nat = Some zero.
Proof.
  apply (build_dataframe_default_zero partial_body partial_frame 2 "bmi");
    [by vm_compute | reflexivity | reflexivity].
Defined.

(** X7: unlike the validator, [build_dataframe_from_request] does not
    catch conversion errors: when the features before [f] convert and
    [float(data.get(f, 0))] raises, that exception is raised. *)
Theorem build_dataframe_raises
    (d : list (string * value)) (pre post : list string) (f : string)
    (e : exn) :
  MODEL_FEATURES = pre ++ f :: post →
  Forall (λ g, ∃ x, vectorizes d g x) pre →
  float_ (default (PyInt 0) (dict_get d f)) = Raised e →
  build_dataframe_from_request (PyDict d) = Raised e.
Proof.
  intros Hfs Hpre He. unfold build_dataframe_from_request.
  by rewrite Hfs, (feature_dict_of_raises d pre f post [] e Hpre He).
Qed.

Lemma build_dataframe_raises_witness :
  build_dataframe_from_request (PyDict invalid_bmi_body)
  = raise ValueError "could not convert string to float: 'abc'".
Proof.
  apply (build_dataframe_raises invalid_bmi_body
           ["age"; "sex"] ["bp"; "s1"; "s2"; "s3"; "s4"; "s5"; "s6"] "bmi").
  - reflexivity.
  - repeat (constructor; [eexists; by vm_compute|]). constructor.
  - by vm_compute.
Defined.

(** ** More on the scoring call and the [/predict] route *)

Section MoreRoutes.
Variable Config : config.Config.
Variable requests_post : post_request → result Response.

Local Abbreviation score_model := (score_model Config requests_post).
Local Abbreviation predict := (predict Config requests_post).
Local Abbreviation rq_of := (scoring_request Config).

Lemma score_model_connection df e :
  requests_post (rq_of df) = Raised e →
  subclass (class_of e) Timeout = false →
  subclass (class_of e) ConnectionError = true →
  score_model df
  = ([Call_requests_post (rq_of df)],
     raise Exception
       "Failed to connect to the model endpoint. Check your internet connection and endpoint URL.").
Proof.
  intros Hp Ht Hc. unfold app.score_model, try_except, call, lift.
  rewrite Hp. cbn [fst snd]. by rewrite Ht, Hc.
Qed.

Lemma score_model_propagates df e :
  requests_post (rq_of df) = Raised e →
  subclass (class_of e) Timeout = false →
  subclass (class_of e) ConnectionError = false →
  score_model df = ([Call_requests_post (rq_of df)], Raised e).
Proof.
  intros Hp Ht Hc. unfold app.score_model, try_except, call, lift.
  rewrite Hp. cbn [fst snd]. by rewrite Ht, Hc.
Qed.

Lemma score_model_trace df :
  (score_model df).1 = [Call_requests_post (rq_of df)].
Proof.
  unfold app.score_model, try_except, call, lift.
  destruct (requests_post (rq_of df)) as [resp|e]; cbn [fst snd mbind io_bind].
  - by destruct (negb (status_code resp =? 200)).
  - destruct (subclass (class_of e) Timeout); [done|].
    by destruct (subclass (class_of e) ConnectionError).
Qed.

(** [predict], branch by branch. *)
Lemma predict_unfold get_json :
  predict get_json
  = match get_json with
    | Raised e => ([], handled e)
    | Ok data =>
        if truthy data then
          match validate_input_data data with
          | Raised e => ([Call_validate_input_data data], handled e)
          | Ok (false, error_message) =>
              ([Call_validate_input_data data],
               error_response error_message 400)
          | Ok (true, _) =>
              match build_dataframe_from_request data with
              | Raised e =>
                  ([Call_validate_input_data data;
                    Call_build_dataframe_from_request data], handled e)
              | Ok df =>
                  (calls_before data df ++ (score_model df).1,
                   match (score_model df).2 ≫= interpret with
                   | Ok prediction_value => succeeded prediction_value
                   | Raised e => handled e
                   end)
              end
          end
        else ([], error_response "No data provided in request body" 400)
    end.
Proof.
  unfold app.predict, predict_try, call, lift, handled, failed,
    error_response, succeeded, calls_before, interpret.
  destruct get_json as [data|e]; cbn [mbind io_bind fst snd];
    [|by destruct (subclass (class_of e) RequestException)].
  destruct (truthy data); cbn [negb]; [|done].
  destruct (validate_input_data data) as [[[] msg]|e]; cbn [negb fst snd app];
    [| done | by destruct (subclass (class_of e) RequestException)].
  destruct (build_dataframe_from_request data) as [df|e]; cbn [fst snd app];
    [|by destruct (subclass (class_of e) RequestException)].
  unfold mbind, mret, io_bind, io_ret, result_bind.
  destruct (app.score_model Config requests_post df) as [t [scored|e]];
    cbn [fst snd app];
    [|destruct (subclass (class_of e) RequestException); by rewrite ?app_nil_r].
  destruct (contains "predictions" scored) as [[]|e];
    [destruct (getitem scored "predictions") as [p|e];
       [destruct (getitem_int p 0) as [v|e]|] | |];
    try destruct (subclass (class_of e) RequestException);
    cbn [app]; by rewrite ?app_nil_r.
Qed.

(** After an accepted body, the answer is decided by [score_model] and
    the interpretation of what it returns. *)
Lemma predict_accepted data df :
  validate_input_data data = Ok (true, "") →
  build_dataframe_from_request data = Ok df →
  predict (Ok data)
  = (calls_before data df ++ (score_model df).1,
     match (score_model df).2 ≫= interpret with
     | Ok prediction_value => succeeded prediction_value
     | Raised e => handled e
     end).
Proof.
  intros Hv Hb.
  by rewrite predict_unfold, (validate_input_data_truthy _ Hv), Hv, Hb.
Qed.

End MoreRoutes.

Lemma existsb_is_str k (l : list value) :
  existsb (is_str k) l = true ↔ PyStr k ∈ l.
Proof.
  induction l as [|v l IH]; cbn.
  - split; [done | by intros ?%elem_of_nil].
  - rewrite orb_true_iff, IH, elem_of_cons.
    assert (is_str k v = true ↔ PyStr k = v) as ->; [|done].
    destruct v; cbn; try (split; [done | by intros [=]]).
    rewrite String.eqb_eq. split; [by intros -> | by intros [= ->]].
Qed.

Lemma handled_status e :
  handled e
  = if subclass (class_of e) RequestException
    then error_response
           ("Network error while calling model endpoint: " +:+ str e) 500
    else error_response ("An error occurred: " +:+ str e) 400.
Proof. done. Qed.

(** Indexing a value that has no first element raises an exception that
    is not a [RequestException]. *)
Lemma getitem_int_without_first p :
  has_first p = false →
  ∃ e, getitem_int p 0 = Raised e
       ∧ subclass (class_of e) RequestException = false.
Proof. destruct p as [| | | |[|??]|[|??]|]; try done; by eexists. Qed.

(** X8: whatever the network does, [score_model] makes exactly one call
    to [requests.post]: to the configured URL, with the bearer token and
    the JSON content type in the headers, the frame's payload as data and
    the configured timeout. *)
Theorem score_model_posts_once
    (Config : config.Config) (requests_post : post_request → result Response)
    (df : DataFrame) :
  ∃ rq,
    (score_model Config requests_post df).1 = [Call_requests_post rq]
    ∧ url rq = MLFLOW_ENDPOINT_URL Config
    ∧ headers rq
      = [("Authorization",
          "Bearer " +:+ default "None" (DATABRICKS_TOKEN Config));
         ("Content-Type", "application/json")]
    ∧ requests.data rq = payload df
    ∧ timeout rq = REQUEST_TIMEOUT Config.
Proof.
  exists (scoring_request Config df). split; [apply score_model_trace | done].
Qed.

(** X9: when [requests.post] raises a [ConnectionError] that is not a
    timeout, [/predict] answers 400 with the connectivity message. *)
Theorem predict_connection_error
    (Config : config.Config) (requests_post : post_request → result Response)
    (data : value) (df : DataFrame) (e : exn) :
  validate_input_data data = Ok (true, "") →
  build_dataframe_from_request data = Ok df →
  requests_post (scoring_request Config df) = Raised e →
  subclass (class_of e) Timeout = false →
  subclass (class_of e) ConnectionError = true →
  (predict Config requests_post (Ok data)).2
  = error_response
      "An error occurred: Failed to connect to the model endpoint. Check your internet connection and endpoint URL."
      400.
Proof.
  intros Hv Hb Hp Ht Hc.
  by rewrite (predict_accepted _ _ _ _ Hv Hb),
    (score_model_connection _ _ _ _ Hp Ht Hc).
Qed.

Lemma predict_connection_error_witness :
  (predict sample_config (always connection_refused)
     (Ok (PyDict sample_body))).2
  = error_response
      "An error occurred: Failed to connect to the model endpoint. Check your internet connection and endpoint URL."
      400.
Proof.
  apply (predict_connection_error sample_config (always connection_refused)
           (PyDict sample_body) sample_frame
           (Build_exn ConnectionError "Connection refused"));
    [by vm_compute | by vm_compute | reflexivity..].
Defined.

(** X10: an exception of [requests.post] that is neither a timeout nor a
    connection error leaves [score_model] unchanged, and [/predict]
    answers 500 with the network prefix when it is a [RequestException],
    400 with the general prefix otherwise. *)
Theorem predict_propagated_exception
    (Config : config.Config) (requests_post : post_request → result Response)
    (data : value) (df : DataFrame) (e : exn) :
  validate_input_data data = Ok (true, "") →
  build_dataframe_from_request data = Ok df →
  requests_post (scoring_request Config df) = Raised e →
  subclass (class_of e) Timeout = false →
  subclass (class_of e) ConnectionError = false →
  (score_model Config requests_post df).2 = Raised e
  ∧ (predict Config requests_post (Ok data)).2
    = if subclass (class_of e) RequestException
      then error_response
             ("Network error while calling model endpoint: " +:+ str e) 500
      else error_response ("An error occurred: " +:+ str e) 400.
Proof.
  intros Hv Hb Hp Ht Hc.
  pose proof (score_model_propagates _ _ _ _ Hp Ht Hc) as Hs.
  split; [by rewrite Hs|].
  by rewrite (predict_accepted _ _ _ _ Hv Hb), Hs.
Qed.

Lemma predict_propagated_exception_witness :
  (score_model unset_config (always missing_schema) sample_frame).2
  = raise RequestException "Invalid URL 'None': No scheme supplied."
  ∧ (predict unset_config (always missing_schema) (Ok (PyDict sample_body))).2
    = error_response
        "Network error while calling model endpoint: Invalid URL 'None': No scheme supplied."
        500.
Proof.
  apply (predict_propagated_exception unset_config (always missing_schema)
           (PyDict sample_body) sample_frame
           (Build_exn RequestException
              "Invalid URL 'None': No scheme supplied."));
    [by vm_compute | by vm_compute | reflexivity..].
Defined.

(** X11: when the service answers 200 and [response.json()] raises,
    [/predict] answers 500 with the network prefix if the exception is a
    [RequestException], 400 with the general prefix otherwise. *)
Theorem predict_undecodable_response
    (Config : config.Config) (requests_post : post_request → result Response)
    (data : value) (df : DataFrame) (resp : Response) (e : exn) :
  validate_input_data data = Ok (true, "") →
  build_dataframe_from_request data = Ok df →
  requests_post (scoring_request Config df) = Ok resp →
  status_code resp = 200 →
  json resp = Raised e →
  (predict Config requests_post (Ok data)).2
  = if subclass (class_of e) RequestException
    then error_response
           ("Network error while calling model endpoint: " +:+ str e) 500
    else error_response ("An error occurred: " +:+ str e) 400.
Proof.
  intros Hv Hb Hp Hc Hj.
  by rewrite (predict_accepted _ _ _ _ Hv Hb),
    (score_model_success _ _ _ _ Hp Hc), Hj.
Qed.

Lemma predict_undecodable_response_witness :
  (predict sample_config (always (Ok not_json)) (Ok (PyDict sample_body))).2
  = error_response
      "Network error while calling model endpoint: Expecting value: line 1 column 1 (char 0)"
      500.
Proof.
  apply (predict_undecodable_response sample_config (always (Ok not_json))
           (PyDict sample_body) sample_frame not_json
           (Build_exn JSONDecodeError
              "Expecting value: line 1 column 1 (char 0)"));
    [by vm_compute | by vm_compute | reflexivity..].
Defined.

(** X12: the calls [/predict] makes are, in order, none; or the validator
    alone, when it does not accept the body; or the validator, the
    vectorizer, [score_model] and one call to [requests.post] for the
    frame of an accepted body.  The network is never used for a body the
    validator did not accept, and never twice. *)
Theorem predict_calls
    (Config : config.Config) (requests_post : post_request → result Response)
    (get_json : result value) :
  let t := (predict Config requests_post get_json).1 in
  t = []
  ∨ (∃ data,
       get_json = Ok data
       ∧ validate_input_data data ≠ Ok (true, "")
       ∧ t = [Call_validate_input_data data])
  ∨ (∃ data df,
       get_json = Ok data
       ∧ validate_input_data data = Ok (true, "")
       ∧ build_dataframe_from_request data = Ok df
       ∧ t = calls_before data df
             ++ [Call_requests_post (scoring_request Config df)]).
Proof.
  cbv zeta. rewrite predict_unfold.
  destruct get_json as [data|e]; [|by left].
  destruct (truthy data); [|by left].
  destruct (validate_input_data data) as [[[] msg]|e] eqn:Hv.
  - assert (msg = "") as -> by (by apply (validate_verdict_message _ _ _ Hv)).
    destruct (accepted_builds _ Hv) as [df Hb]. rewrite Hb.
    right; right. exists data, df.
    by rewrite score_model_trace.
  - right; left. exists data.
    split_and!; [reflexivity | by rewrite Hv | reflexivity].
  - right; left. exists data.
    split_and!; [reflexivity | by rewrite Hv | reflexivity].
Qed.

(** X13: [/predict] always answers, with one of three envelopes: success
    with a prediction and status 200, or failure with a message and status
    400 or 500. *)
Theorem predict_envelope
    (Config : config.Config) (requests_post : post_request → result Response)
    (get_json : result value) :
  let r := (predict Config requests_post get_json).2 in
  (∃ prediction_value, r = succeeded prediction_value)
  ∨ (∃ msg, r = error_response msg 400)
  ∨ (∃ msg, r = error_response msg 500).
Proof.
  cbv zeta. rewrite predict_unfold.
  assert (∀ e, (∃ msg, handled e = error_response msg 400)
               ∨ (∃ msg, handled e = error_response msg 500)) as Hh.
  { intros e. rewrite handled_status.
    destruct (subclass (class_of e) RequestException); eauto. }
  destruct get_json as [data|e]; [|right; apply Hh].
  destruct (truthy data); [|right; left; by eexists].
  destruct (validate_input_data data) as [[[] msg]|e];
    [|right; left; by eexists | right; apply Hh].
  destruct (build_dataframe_from_request data) as [df|e]; [|right; apply Hh].
  cbn [snd].
  destruct (_ ≫= interpret) as [v|e]; [left; by eexists | right; apply Hh].
Qed.

(** X14: a body that is true in a boolean test and that the validator
    rejects is answered 400 with the validator's message; neither the
    vectorizer nor the network is used. *)
Theorem predict_rejected_input
    (Config : config.Config) (requests_post : post_request → result Response)
    (data : value) (error_message : string) :
  truthy data = true →
  validate_input_data data = Ok (false, error_message) →
  predict Config requests_post (Ok data)
  = ([Call_validate_input_data data], error_response error_message 400).
Proof. intros Ht Hv. by rewrite predict_unfold, Ht, Hv. Qed.

Lemma predict_rejected_input_witness :
  predict sample_config (always (Ok overloaded)) (Ok (PyDict partial_body))
  = ([Call_validate_input_data (PyDict partial_body)],
     error_response
       "Missing required features: age, bmi, bp, s1, s2, s4, s5, s6" 400).
Proof.
  apply (predict_rejected_input sample_config (always (Ok overloaded))
           (PyDict partial_body));
    [reflexivity | by vm_compute].
Defined.

(** X15: when the service answers 200 with a JSON document that is
    [null], a boolean or a number, [/predict] answers 400: the membership
    test on it raises [TypeError]. *)
Theorem predict_scalar_response
    (Config : config.Config) (requests_post : post_request → result Response)
    (data : value) (df : DataFrame) (resp : Response) (scored : value) :
  validate_input_data data = Ok (true, "") →
  build_dataframe_from_request data = Ok df →
  requests_post (scoring_request Config df) = Ok resp →
  status_code resp = 200 →
  json resp = Ok scored →
  is_scalar scored = true →
  ∃ msg,
    contains "predictions" scored = raise TypeError msg
    ∧ (predict Config requests_post (Ok data)).2
      = error_response ("An error occurred: " +:+ msg) 400.
Proof.
  intros Hv Hb Hp Hc Hj Hs.
  rewrite (predict_accepted _ _ _ _ Hv Hb),
    (score_model_success _ _ _ _ Hp Hc), Hj.
  destruct scored; try discriminate; by eexists.
Qed.

Lemma predict_scalar_response_witness :
  ∃ msg,
    contains "predictions" (PyFloat f152_5) = raise TypeError msg
    ∧ (predict sample_config
         (always (Ok (json_response (PyFloat f152_5) "152.5")))
         (Ok (PyDict sample_body))).2
      = error_response ("An error occurred: " +:+ msg) 400.
Proof.
  apply (predict_scalar_response sample_config
           (always (Ok (json_response (PyFloat f152_5) "152.5")))
           (PyDict sample_body) sample_frame
           (json_response (PyFloat f152_5) "152.5") (PyFloat f152_5));
    [by vm_compute | by vm_compute | reflexivity..].
Defined.

(** X16: when the service answers 200 with a JSON array, the prediction
    is the whole array, unless the string [predictions] is one of its
    elements, in which case [/predict] answers 400. *)
Theorem predict_array_response
    (Config : config.Config) (requests_post : post_request → result Response)
    (data : value) (df : DataFrame) (resp : Response) (l : list value) :
  validate_input_data data = Ok (true, "") →
  build_dataframe_from_request data = Ok df →
  requests_post (scoring_request Config df) = Ok resp →
  status_code resp = 200 →
  json resp = Ok (PyList l) →
  (PyStr "predictions" ∉ l →
   (predict Config requests_post (Ok data)).2 = succeeded (PyList l))
  ∧ (PyStr "predictions" ∈ l →
     ∃ msg, (predict Config requests_post (Ok data)).2
            = error_response msg 400).
Proof.
  intros Hv Hb Hp Hc Hj.
  rewrite (predict_accepted _ _ _ _ Hv Hb),
    (score_model_success _ _ _ _ Hp Hc), Hj.
  unfold interpret, contains, mbind, result_bind. cbn [snd]. split.
  - intros Hn. destruct (existsb (is_str "predictions") l) eqn:E; [|done].
    by apply existsb_is_str in E.
  - intros Hin. apply existsb_is_str in Hin. rewrite Hin. by eexists.
Qed.

Lemma predict_array_response_witness :
  (predict sample_config
     (always (Ok (json_response (PyList [PyFloat f152_5]) "[152.5]")))
     (Ok (PyDict sample_body))).2
  = succeeded (PyList [PyFloat f152_5]).
Proof.
  apply (proj1 (predict_array_response sample_config
                  (always (Ok (json_response (PyList [PyFloat f152_5])
                                 "[152.5]")))
                  (PyDict sample_body) sample_frame
                  (json_response (PyList [PyFloat f152_5]) "[152.5]")
                  [PyFloat f152_5]
                  ltac:(by vm_compute) ltac:(by vm_compute)
                  eq_refl eq_refl eq_refl)).
  intros [[=]|[]%elem_of_nil]%elem_of_cons.
Defined.

(** X17: when the service answers 200 with a JSON object whose
    [predictions] field holds anything but a non-empty array or a
    non-empty string, [/predict] answers 400. *)
Theorem predict_predictions_without_first
    (Config : config.Config) (requests_post : post_request → result Response)
    (data : value) (df : DataFrame) (resp : Response)
    (r : list (string * value)) (p : value) :
  validate_input_data data = Ok (true, "") →
  build_dataframe_from_request data = Ok df →
  requests_post (scoring_request Config df) = Ok resp →
  status_code resp = 200 →
  json resp = Ok (PyDict r) →
  dict_get r "predictions" = Some p →
  has_first p = false →
  ∃ msg, (predict Config requests_post (Ok data)).2
         = error_response ("An error occurred: " +:+ msg) 400.
Proof.
  intros Hv Hb Hp Hc Hj Hr Hf.
  rewrite (predict_accepted _ _ _ _ Hv Hb),
    (score_model_success _ _ _ _ Hp Hc), Hj.
  unfold interpret, contains, getitem, mbind, result_bind. cbn [snd].
  rewrite Hr, bool_decide_eq_true_2 by eauto.
  destruct (getitem_int_without_first p Hf) as (e & -> & He).
  rewrite handled_status, He. by eexists.
Qed.

Lemma predict_predictions_without_first_witness :
  ∃ msg,
    (predict sample_config
       (always (Ok (json_response
                      (PyDict [("predictions", PyFloat f152_5)]) "...")))
       (Ok (PyDict sample_body))).2
    = error_response ("An error occurred: " +:+ msg) 400.
Proof.
  apply (predict_predictions_without_first sample_config
           (always (Ok (json_response
                          (PyDict [("predictions", PyFloat f152_5)]) "...")))
           (PyDict sample_body) sample_frame
           (json_response (PyDict [("predictions", PyFloat f152_5)]) "...")
           [("predictions", PyFloat f152_5)] (PyFloat f152_5));
    [by vm_compute | by vm_compute | reflexivity..].
Defined.

(** ** The configuration *)

Section Configuration.
Implicit Types cls : config.Config.

(** The errors of [validate_config], case by case: at most one about the
    token, then exactly one of none, the unset URL or the insecure URL. *)
Lemma validate_config_errors cls :
  (validate_config cls).2
  = (if is_set (DATABRICKS_TOKEN cls) then [] else [token_error])
    ++ match MLFLOW_ENDPOINT_URL cls with
       | Some url =>
           if String.eqb url "" then [url_error]
           else if String.prefix "https://" url then []
           else [https_error url]
       | None => [url_error]
       end.
Proof.
  unfold validate_config. cbn [snd].
  destruct (is_set (DATABRICKS_TOKEN cls));
    destruct (MLFLOW_ENDPOINT_URL cls) as [url|]; cbn [negb is_set app];
    try done;
    destruct (String.eqb url ""); cbn [negb andb app]; try done;
    by destruct (String.prefix "https://" url).
Qed.

Lemma validate_config_valid cls :
  (validate_config cls).1 = true ↔ (validate_config cls).2 = [].
Proof.
  unfold validate_config. cbn [fst snd]. rewrite bool_decide_eq_true.
  apply length_zero_iff_nil.
Qed.

Lemma prefix_https_nonempty url :
  String.prefix "https://" url = true → String.eqb url "" = false.
Proof. by destruct url. Qed.

Lemma token_error_not_url_error : token_error ≠ url_error.
Proof. apply String.eqb_neq. by vm_compute. Qed.

Lemma https_error_not_url_error url : https_error url ≠ url_error.
Proof. apply String.eqb_neq. reflexivity. Qed.

End Configuration.

(** X18: [validate_config] reports a valid configuration exactly when it
    lists no error, and exactly when the token is set and the endpoint URL
    is set and starts with [https://]. *)
Theorem validate_config_valid_iff (cls : config.Config) :
  ((validate_config cls).1 = true ↔ (validate_config cls).2 = [])
  ∧ ((validate_config cls).1 = true
     ↔ is_set (DATABRICKS_TOKEN cls) = true
       ∧ ∃ url, MLFLOW_ENDPOINT_URL cls = Some url
                ∧ String.prefix "https://" url = true).
Proof.
  split; [apply validate_config_valid|].
  rewrite validate_config_valid, validate_config_errors.
  destruct (is_set (DATABRICKS_TOKEN cls));
    destruct (MLFLOW_ENDPOINT_URL cls) as [url|]; cbn [app].
  - destruct (String.eqb url "") eqn:E.
    + split; [done|]. intros (_ & u & [= <-] & Hp).
      by rewrite (prefix_https_nonempty _ Hp) in E.
    + destruct (String.prefix "https://" url) eqn:Hp.
      * split; [eauto | done].
      * split; [done|]. intros (_ & u & [= <-] & Hp'). congruence.
  - split; [done | by intros (_ & u & [=] & _)].
  - split; [done | by intros [[=] _]].
  - split; [done | by intros [[=] _]].
Qed.

(** X19: an endpoint URL that is set but does not start with [https://]
    makes the configuration invalid; the last error is the one about
    HTTPS, with the URL in it, and the error about an unset URL is not
    listed. *)
Theorem validate_config_insecure_url (cls : config.Config) (url : string) :
  MLFLOW_ENDPOINT_URL cls = Some url →
  url ≠ "" →
  String.prefix "https://" url = false →
  (validate_config cls).1 = false
  ∧ last (validate_config cls).2
    = Some ("MLFLOW_ENDPOINT_URL should use HTTPS for security. Current URL: "
            +:+ url)
  ∧ url_error ∉ (validate_config cls).2.
Proof.
  intros Hu Hne Hp.
  assert ((validate_config cls).2
          = (if is_set (DATABRICKS_TOKEN cls) then [] else [token_error])
            ++ [https_error url]) as Herr.
  { rewrite validate_config_errors, Hu, Hp.
    by apply String.eqb_neq in Hne as ->. }
  split_and!.
  - apply not_true_is_false. rewrite validate_config_valid, Herr.
    by destruct (is_set _).
  - rewrite Herr. by destruct (is_set _).
  - rewrite Herr. pose proof token_error_not_url_error.
    pose proof (https_error_not_url_error url).
    destruct (is_set _); cbn [app];
      rewrite ?not_elem_of_cons; split_and?; try done; apply not_elem_of_nil.
Qed.

Lemma validate_config_insecure_url_witness :
  (validate_config http_config).1 = false
  ∧ last (validate_config http_config).2
    = Some ("MLFLOW_ENDPOINT_URL should use HTTPS for security. Current URL: "
            +:+ "http://localhost:5000/invocations")
  ∧ url_error ∉ (validate_config http_config).2.
Proof.
  apply (validate_config_insecure_url http_config
           "http://localhost:5000/invocations");
    [reflexivity | done | reflexivity].
Defined.

(** X20: [/health] answers 200 exactly when [validate_config] reports a
    valid configuration; otherwise it answers 500 with status [unhealthy]
    and the errors of [validate_config], of which there is at least
    one. *)
Theorem health_check_status (cls : config.Config) :
  (status (health_check cls) = 200 ↔ (validate_config cls).1 = true)
  ∧ ((validate_config cls).1 = false →
     ∃ e errors,
       (validate_config cls).2 = e :: errors
       ∧ health_check cls
         = {| body := jsonify
                [("status", PyStr "unhealthy");
                 ("errors", PyList (PyStr <$> e :: errors))];
              status := 500 |}).
Proof.
  pose proof (validate_config_valid cls) as Hvalid.
  unfold health_check.
  destruct (validate_config cls) as [[] errors]; cbn [fst snd] in *.
  - split; [done | by intros [=]].
  - split; [split; by intros [=]|]. intros _.
    destruct errors as [|e errors]; [|by eexists _, _].
    discriminate (proj2 Hvalid eq_refl).
Qed.

(** X21: [ProductionConfig.validate_config] is stricter than the base
    check: it reports a valid configuration exactly when the base check
    does and the secret key is not the development default, and its
    errors start with the errors of the base check. *)
Theorem ProductionConfig_validate_config_stricter (cls : config.Config) :
  ((ProductionConfig_validate_config cls).1 = true
   ↔ (validate_config cls).1 = true
     ∧ SECRET_KEY cls ≠ "dev-secret-key-change-in-production")
  ∧ (validate_config cls).2 `prefix_of` (ProductionConfig_validate_config cls).2.
Proof.
  pose proof (validate_config_valid cls) as Hvalid.
  unfold ProductionConfig_validate_config.
  destruct (validate_config cls) as [is_valid errors]; cbn [fst snd] in *.
  destruct (String.eqb_spec (SECRET_KEY cls) default_secret_key) as [Hk|Hk];
    cbn [fst snd]; rewrite bool_decide_eq_true.
  - split; [|by apply prefix_app_r].
    rewrite length_app. cbn. split; [lia | by intros [_ ?]].
  - split; [|done]. rewrite Hvalid, length_zero_iff_nil. tauto.
Qed.

(** X22: [get_config] returns [ProductionConfig] for the name
    [production] and [DevelopmentConfig] for every other name, known or
    not; so debug mode is on for every name but [production], whatever
    the environment set. *)
Theorem get_config_production_only (config_name : string) :
  get_config config_name
  = (if decide (config_name = "production")
     then ProductionConfig else DevelopmentConfig)
  ∧ ∀ base : config.Config,
      DEBUG (attributes (get_config config_name) base)
      = negb (bool_decide (config_name = "production")).
Proof.
  assert (get_config config_name
          = if decide (config_name = "production")
            then ProductionConfig else DevelopmentConfig) as ->.
  { unfold get_config, config_by_name. cbn [dict_get].
    destruct (String.eqb_spec "development" config_name) as [<-|_]; [done|].
    destruct (String.eqb_spec "production" config_name) as [<-|Hp];
      [done|].
    rewrite decide_False by done.
    by destruct (String.eqb "default" config_name). }
  split; [done|]. intros base.
  destruct (decide (config_name = "production")) as [->|Hn];
    [by rewrite bool_decide_eq_true_2 | by rewrite bool_decide_eq_false_2].
Qed.

(** X23: what [print_config_status] prints depends on the token only
    through whether it is set: two configurations that differ at most in
    the token, both with a token or both without one, print the same
    lines. *)
Theorem print_config_status_hides_token (c1 c2 : config.Config) :
  same_but_token c1 c2 →
  is_set (DATABRICKS_TOKEN c1) = is_set (DATABRICKS_TOKEN c2) →
  print_config_status c1 = print_config_status c2.
Proof.
  intros (Hk & Hd & Hh & Hp & Hu & Ht & Hn & Hv) Hs.
  unfold print_config_status. by rewrite Hd, Hh, Hp, Hu, Ht, Hn, Hv, Hs.
Qed.

Lemma print_config_status_hides_token_witness :
  print_config_status sample_config = print_config_status other_token_config.
Proof.
  apply (print_config_status_hides_token sample_config other_token_config);
    [by repeat split | reflexivity].
Defined.
